(** * presentation-agent: the slide model, the layout rules and the orchestrator

  A shallow embedding of the decision logic of the repository:

  - [src/agent/slide_generator.py]      (module [SlideGenerator])
  - [src/templates/layout_suggester.py] (module [LayoutSuggester])
  - [src/visualizations/chart_generator.py] (module [ChartGenerator])
  - [src/agent/presentation_agent.py]   (module [PresentationAgent])

  Python values are embedded as the type [value]; a [dict] keeps its
  insertion order, as Python's does.  Strings are ASCII text: [upper],
  [strip] and [split] act on the 7-bit range the way [str.upper],
  [str.strip] and [str.split] do.  Methods that log, raise or mutate the
  agent run in the monad [Py]. *)

From Stdlib Require Import ZArith List String Ascii Bool Lia QArith.
From Stdlib Require Import Numbers.DecimalString.
Import ListNotations.

Set Warnings "-register-all".

Local Open Scope string_scope.
Local Open Scope list_scope.
Local Open Scope Z_scope.

(* ================================================================= *)
(** ** Python strings *)

Module PyStr.

(** [str.isspace] on one ASCII character: TAB, LF, VT, FF, CR, the four
    separators FS, GS, RS, US and the space. *)
Definition isspace (c : ascii) : bool :=
  let n := nat_of_ascii c in
  ((9 <=? n)%nat && (n <=? 13)%nat) || ((28 <=? n)%nat && (n <=? 32)%nat).

Fixpoint lstrip (s : string) : string :=
  match s with
  | EmptyString => EmptyString
  | String c s' => if isspace c then lstrip s' else s
  end.

Fixpoint rstrip (s : string) : string :=
  match s with
  | EmptyString => EmptyString
  | String c s' =>
      match rstrip s' with
      | EmptyString => if isspace c then EmptyString else String c EmptyString
      | r => String c r
      end
  end.

(** [s.strip()] *)
Definition strip (s : string) : string := rstrip (lstrip s).

(** [s.split(sep)] for a one-character separator: never the empty list. *)
Fixpoint split (sep : ascii) (s : string) : list string :=
  match s with
  | EmptyString => [EmptyString]
  | String c s' =>
      if Ascii.eqb c sep then EmptyString :: split sep s'
      else match split sep s' with
           | l :: ls => String c l :: ls
           | [] => [String c EmptyString]
           end
  end.

(** [s.split()]: the maximal runs of characters that are not spaces. *)
Fixpoint split_ws (s : string) : list string :=
  match s with
  | EmptyString => []
  | String c s' =>
      if isspace c then split_ws s'
      else match s' with
           | EmptyString => [String c EmptyString]
           | String c' _ =>
               if isspace c' then String c EmptyString :: split_ws s'
               else match split_ws s' with
                    | w :: ws => String c w :: ws
                    | [] => [String c EmptyString]
                    end
           end
  end.

(** [s.startswith(p)] *)
Definition startswith (s p : string) : bool := String.prefix p s.

Definition upper_char (c : ascii) : ascii :=
  let n := nat_of_ascii c in
  if ((97 <=? n)%nat && (n <=? 122)%nat)%bool then ascii_of_nat (n - 32) else c.

Definition lower_char (c : ascii) : ascii :=
  let n := nat_of_ascii c in
  if ((65 <=? n)%nat && (n <=? 90)%nat)%bool then ascii_of_nat (n + 32) else c.

Fixpoint map_chars (f : ascii -> ascii) (s : string) : string :=
  match s with
  | EmptyString => EmptyString
  | String c s' => String (f c) (map_chars f s')
  end.

(** [s.upper()] and [s.lower()] *)
Definition upper : string -> string := map_chars upper_char.
Definition lower : string -> string := map_chars lower_char.

(** [str(n)] and [f"{n}"] for an integer. *)
Definition of_Z (z : Z) : string := NilZero.string_of_int (Z.to_int z).

(** A line is blank when nothing is left of it after [strip]. *)
Definition blank (l : string) : bool :=
  match strip l with EmptyString => true | _ => false end.

Definition LF : ascii := ascii_of_nat 10.

(** [p in s] for two strings: [p] occurs somewhere in [s]. *)
Fixpoint contains (s p : string) : bool :=
  match s with
  | EmptyString => String.prefix p EmptyString
  | String _ s' => String.prefix p s || contains s' p
  end.

Fixpoint reverse_onto (s acc : string) : string :=
  match s with
  | EmptyString => acc
  | String c s' => reverse_onto s' (String c acc)
  end.

Definition reverse (s : string) : string := reverse_onto s EmptyString.

(** [s.endswith(p)] *)
Definition endswith (s p : string) : bool := String.prefix (reverse p) (reverse s).

(** The text holds a line break. *)
Fixpoint has_newline (s : string) : bool :=
  match s with
  | EmptyString => false
  | String c s' => Ascii.eqb c LF || has_newline s'
  end.

End PyStr.

(* ================================================================= *)
(** ** Python values and dictionaries *)

Inductive value : Type :=
| VNone
| VBool (b : bool)
| VInt (z : Z)
| VStr (s : string)
| VList (l : list value)
| VTuple (l : list value)
| VDict (d : list (string * value)).

(** A [dict] with string keys, in insertion order. *)
Definition dict : Type := list (string * value).

Module Dict.

(** [d.get(k)] *)
Fixpoint get (k : string) (d : dict) : option value :=
  match d with
  | [] => None
  | (k', v) :: d' => if String.eqb k k' then Some v else get k d'
  end.

(** [d.get(k, default)] *)
Definition get_default (k : string) (default : value) (d : dict) : value :=
  match get k d with Some v => v | None => default end.

(** [k in d] *)
Definition contains (k : string) (d : dict) : bool :=
  match get k d with Some _ => true | None => false end.

(** [d[k] = v]: an existing key keeps its place, a new one goes last. *)
Fixpoint set (k : string) (v : value) (d : dict) : dict :=
  match d with
  | [] => [(k, v)]
  | (k', v') :: d' =>
      if String.eqb k k' then (k', v) :: d' else (k', v') :: set k v d'
  end.

Definition keys (d : dict) : list string := map fst d.

End Dict.

(** A dict with string keys whose values all have one type [V]. *)
Module StrMap.

Fixpoint get {V} (k : string) (d : list (string * V)) : option V :=
  match d with
  | [] => None
  | (k', v) :: d' => if String.eqb k k' then Some v else get k d'
  end.

Definition contains {V} (k : string) (d : list (string * V)) : bool :=
  match get k d with Some _ => true | None => false end.

Fixpoint set {V} (k : string) (v : V) (d : list (string * V)) : list (string * V) :=
  match d with
  | [] => [(k, v)]
  | (k', v') :: d' =>
      if String.eqb k k' then (k', v) :: d' else (k', v') :: set k v d'
  end.

End StrMap.

(** [k in v] guarded by [isinstance(v, dict)]. *)
Definition is_dict (v : value) : bool :=
  match v with VDict _ => true | _ => false end.

Definition has_key (k : string) (v : value) : bool :=
  match v with VDict d => Dict.contains k d | _ => false end.

(** [v == 'text'] for a string literal. *)
Definition eq_str (v : value) (s : string) : bool :=
  match v with VStr s' => String.eqb s' s | _ => false end.

(** Python list indexing, [l[i]] and [l[i] = x], with negative indices
  counted from the end; [None] stands for [IndexError]. *)
Module PyList.

Definition len {A} (l : list A) : Z := Z.of_nat (List.length l).

Definition norm_index {A} (l : list A) (i : Z) : option nat :=
  if i <? 0 then
    if 0 <=? i + len l then Some (Z.to_nat (i + len l)) else None
  else
    if i <? len l then Some (Z.to_nat i) else None.

Fixpoint update {A} (n : nat) (f : A -> A) (l : list A) : list A :=
  match l, n with
  | [], _ => []
  | x :: l', O => f x :: l'
  | x :: l', S n' => x :: update n' f l'
  end.

Definition getitem {A} (l : list A) (i : Z) : option A :=
  match norm_index l i with
  | Some n => nth_error l n
  | None => None
  end.

End PyList.

(* ================================================================= *)
(** ** Effects: log records, collaborator calls, exceptions *)

Inductive level : Type := DEBUG | INFO | ERROR.

Inductive event : Type :=
| Log (lvl : level) (msg : string)
| CallFetch (source : string)
| CallExport (format_name : string) (output_path : string).

Inductive exn : Type :=
| IndexError
| TypeError.

Inductive result (S A : Type) : Type :=
| Done (a : A) (s : S) (tr : list event)
| Raised (e : exn) (s : S) (tr : list event).
Arguments Done {S A} a s tr.
Arguments Raised {S A} e s tr.

(** A method of an object whose state has type [S]. *)
Definition Py (S A : Type) : Type := S -> result S A.

Definition ret {S A} (a : A) : Py S A := fun s => Done a s [].

Definition bind {S A B} (m : Py S A) (f : A -> Py S B) : Py S B :=
  fun s =>
    match m s with
    | Done a s' tr =>
        match f a s' with
        | Done b s'' tr' => Done b s'' (tr ++ tr')
        | Raised e s'' tr' => Raised e s'' (tr ++ tr')
        end
    | Raised e s' tr => Raised e s' tr
    end.

Definition get_state {S} : Py S S := fun s => Done s s [].
Definition put_state {S} (s : S) : Py S unit := fun _ => Done tt s [].
Definition raise {S A} (e : exn) : Py S A := fun s => Raised e s [].
Definition emit {S} (ev : event) : Py S unit := fun s => Done tt s [ev].

Definition logger_info {S} (msg : string) : Py S unit := emit (Log INFO msg).
Definition logger_error {S} (msg : string) : Py S unit := emit (Log ERROR msg).

Declare Scope py_scope.
Delimit Scope py_scope with py.
Notation "x <- m ;; k" := (bind m (fun x => k))
  (at level 61, m at next level, right associativity) : py_scope.
Notation "m ;;; k" := (bind m (fun _ => k))
  (at level 61, right associativity) : py_scope.
Local Open Scope py_scope.

(** [E[name]] for an [Enum] class [E] given by its members, in the order
    they are declared; [None] stands for [KeyError]. *)
Fixpoint enum_getitem {E} (members : list (string * E)) (name : string) : option E :=
  match members with
  | [] => None
  | (n, e) :: rest => if String.eqb name n then Some e else enum_getitem rest name
  end.

(* ================================================================= *)
(** ** Hashable values: the keys of a dictionary built at run time *)

(** The key a hashable value stands for: [True] and [1] are one key, as
    are [False] and [0]; a list or a dict has none ([TypeError]). *)
Inductive key : Type :=
| KNone
| KInt (z : Z)
| KStr (s : string)
| KTuple (ks : list key).

Fixpoint to_key (v : value) : option key :=
  match v with
  | VNone => Some KNone
  | VBool b => Some (KInt (if b then 1 else 0))
  | VInt z => Some (KInt z)
  | VStr s => Some (KStr s)
  | VTuple l =>
      option_map KTuple
        ((fix go (l : list value) : option (list key) :=
            match l with
            | [] => Some []
            | x :: xs =>
                match to_key x, go xs with
                | Some k, Some ks => Some (k :: ks)
                | _, _ => None
                end
            end) l)
  | VList _ | VDict _ => None
  end.

Fixpoint key_eqb (a b : key) : bool :=
  match a, b with
  | KNone, KNone => true
  | KInt x, KInt y => x =? y
  | KStr x, KStr y => String.eqb x y
  | KTuple xs, KTuple ys =>
      (fix go (xs ys : list key) : bool :=
         match xs, ys with
         | [], [] => true
         | x :: xs', y :: ys' => key_eqb x y && go xs' ys'
         | _, _ => false
         end) xs ys
  | _, _ => false
  end.

(** [counts[k] = counts.get(k, 0) + 1] on a dict whose keys are values;
    the entry keeps the key object that was inserted first. *)
Fixpoint count_up (k : key) (v : value) (counts : list (key * value * Z))
  : list (key * value * Z) :=
  match counts with
  | [] => [(k, v, 1)]
  | (k', v', n) :: rest =>
      if key_eqb k k' then (k', v', n + 1) :: rest
      else (k', v', n) :: count_up k v rest
  end.

(** The numbers a statistic can be: an [int], or the [float] nearest to
    an exact quotient. *)
Inductive number : Type :=
| NInt (z : Z)
| NFloat (q : Q).

(* ================================================================= *)
(** ** src/agent/slide_generator.py *)

Module SlideGenerator.

(** [_load_templates]: the layout of each slide template. *)
Definition slide_templates : dict :=
  [ ("title", VDict [("layout", VStr "title_slide"); ("content_type", VStr "text")]);
    ("content", VDict [("layout", VStr "bullet_points"); ("content_type", VStr "text")]);
    ("chart", VDict [("layout", VStr "chart_slide"); ("content_type", VStr "visualization")]);
    ("comparison", VDict [("layout", VStr "two_column"); ("content_type", VStr "text")]) ].

(** [self.slide_templates[name]['layout']] for a template that exists. *)
Definition template_layout (name : string) : value :=
  match Dict.get name slide_templates with
  | Some (VDict t) => Dict.get_default "layout" VNone t
  | _ => VNone
  end.

(** The loop over [lines[1:]] of [_parse_section_to_slide]. *)
Fixpoint collect_bullets (lines : list string) : list string :=
  match lines with
  | [] => []
  | line :: rest =>
      let line := PyStr.strip line in
      if negb (String.eqb line "") && negb (PyStr.startswith line "#")
      then line :: collect_bullets rest
      else collect_bullets rest
  end.

Definition section_lines (section : string) : list string :=
  PyStr.split PyStr.LF (PyStr.strip section).

Definition section_title (section : string) : string :=
  PyStr.strip (hd EmptyString (section_lines section)).

Definition section_bullets (section : string) : list string :=
  match collect_bullets (tl (section_lines section)) with
  | [] => [section]
  | bullet_points => bullet_points
  end.

Definition _parse_section_to_slide (section : string) (slide_id : Z) : dict :=
  let title := section_title section in
  [ ("id", VInt slide_id);
    ("title", VStr title);
    ("type", VStr "content");
    ("content", VDict [ ("heading", VStr title);
                        ("bullet_points", VList (map VStr (section_bullets section))) ]);
    ("layout", template_layout "content") ].

(** [slide['content']['bullet_points']] *)
Definition bullet_points (slide : dict) : option value :=
  match Dict.get "content" slide with
  | Some (VDict content) => Dict.get "bullet_points" content
  | _ => None
  end.

(** A line that gives no bullet: blank, or a heading once trimmed. *)
Definition no_bullet (line : string) : Prop :=
  PyStr.blank line = true \/ PyStr.startswith (PyStr.strip line) "#" = true.

(** The test of the bullet loop on a trimmed line, and what holds of a
    bullet that passes it. *)
Definition keeps (line : string) : bool :=
  negb (String.eqb line "") && negb (PyStr.startswith line "#").

Definition clean_bullet (b : string) : Prop :=
  b <> EmptyString
  /\ PyStr.startswith b "#" = false
  /\ PyStr.strip b = b
  /\ PyStr.has_newline b = false.

Definition title_slide (title : string) : dict :=
  [ ("id", VInt 0);
    ("title", VStr title);
    ("type", VStr "title");
    ("content", VDict [ ("heading", VStr title);
                        ("subheading", VStr "Auto-generated Presentation") ]);
    ("layout", template_layout "title") ].

(** [for i, section in enumerate(sections, i0): slides.append(...)] *)
Fixpoint content_slides (i0 : Z) (sections : list string) : list dict :=
  match sections with
  | [] => []
  | section :: rest =>
      _parse_section_to_slide section i0 :: content_slides (i0 + 1) rest
  end.

Definition slides_from_text (title : string) (sections : list string) : list dict :=
  title_slide title :: content_slides 1 sections.

Definition generate_slides_from_text {S} (title : string) (sections : list string)
  : Py S (list dict) :=
  let slides := slides_from_text title sections in
  logger_info ("Generated " ++ PyStr.of_Z (PyList.len slides) ++ " slides from "
               ++ PyStr.of_Z (PyList.len sections) ++ " sections") ;;;
  ret slides.

Section Builtins.

(** The builtin [str()], used on slide contents and in f-strings. *)
Variable py_str : value -> string.

(** [f"{v}"] and [str(v)]: a string is its own text. *)
Definition format (v : value) : string :=
  match v with VStr s => s | _ => py_str v end.

(** [for x in v]: the items a value yields, [None] when it is not iterable. *)
Definition iterate (v : value) : option (list value) :=
  match v with
  | VList l | VTuple l => Some l
  | VDict d => Some (map (fun kv => VStr (fst kv)) d)
  | VStr s => Some (map (fun c => VStr (String c EmptyString)) (list_ascii_of_string s))
  | VNone | VBool _ | VInt _ => None
  end.

(** ['\n'.join(notes)] *)
Definition join_lines (notes : list string) : string :=
  String.concat (String PyStr.LF EmptyString) notes.

Definition generate_speaker_notes (slide : dict) : exn + string :=
  let notes1 :=
    match Dict.get "title" slide with
    | Some t => [("Slide: " ++ format t ++ String PyStr.LF EmptyString)%string]
    | None => []
    end in
  let content := Dict.get_default "content" (VDict []) slide in
  let notes2 : option (list string) :=
    match content with
    | VDict c =>
        match Dict.get "bullet_points" c with
        | Some bp =>
            match iterate bp with
            | Some points =>
                Some ("Key points to discuss:"
                        :: map (fun point => ("  - " ++ format point)%string) points)
            | None => None
            end
        | None => Some []
        end
    | _ => Some []
    end in
  let notes3 :=
    if Dict.contains "chart" slide
    then [(String PyStr.LF EmptyString
            ++ "Chart/Visualization: Present and explain the data trends.")%string]
    else [] in
  match notes2 with
  | Some n2 => inr (join_lines (notes1 ++ n2 ++ notes3))
  | None => inl TypeError
  end.

(** [add_speaker_notes_to_slides]: the slides are changed in place, so a
    loop that raises leaves the earlier slides with their notes.  The
    result is the list as the loop leaves it and the exception, if any. *)
Fixpoint add_speaker_notes_to_slides (slides : list dict) : list dict * option exn :=
  match slides with
  | [] => ([], None)
  | slide :: rest =>
      match generate_speaker_notes slide with
      | inr notes =>
          let (rest', e) := add_speaker_notes_to_slides rest in
          (Dict.set "speaker_notes" (VStr notes) slide :: rest', e)
      | inl e => (slide :: rest, Some e)
      end
  end.

Definition required_fields : list string :=
  ["id"; "title"; "type"; "content"; "layout"].

Definition validate_slide (slide : dict) : bool :=
  forallb (fun field => Dict.contains field slide) required_fields.

(** [len(str(slide.get('content', '')).split())] *)
Definition content_length (slide : dict) : Z :=
  PyList.len (PyStr.split_ws (format (Dict.get_default "content" (VStr "") slide))).

Record statistics : Type := {
  total_slides : Z;
  slide_types : list (key * value * Z);
  average_content_length : number
}.

(** The loop of [get_slide_statistics]; an unhashable slide type raises. *)
Fixpoint tally (slides : list dict) (slide_types : list (key * value * Z))
  (total_content_length : Z) : exn + (list (key * value * Z) * Z) :=
  match slides with
  | [] => inr (slide_types, total_content_length)
  | slide :: rest =>
      let slide_type := Dict.get_default "type" (VStr "unknown") slide in
      match to_key slide_type with
      | None => inl TypeError
      | Some k =>
          tally rest (count_up k slide_type slide_types)
                (total_content_length + content_length slide)
      end
  end.

Definition get_slide_statistics (slides : list dict) : exn + statistics :=
  let total_slides := PyList.len slides in
  match tally slides [] 0 with
  | inl e => inl e
  | inr (slide_types, total_content_length) =>
      inr {| total_slides := total_slides;
             slide_types := slide_types;
             average_content_length :=
               if total_slides >? 0
               then NFloat (Qmake total_content_length (Z.to_pos total_slides))
               else NInt 0 |}
  end.

(** The words of all contents together, and the slides whose type can be
    a key of [slide_types]. *)
Definition total_words (slides : list dict) : Z :=
  fold_right (fun slide acc => content_length slide + acc) 0 slides.

Definition type_hashable (slide : dict) : Prop :=
  to_key (Dict.get_default "type" (VStr "unknown") slide) <> None.

(** [slide_types.get(k, 0)], the sum of all tallies, and the number of
    slides whose type is the key [k]. *)
Fixpoint count_of (k : key) (counts : list (key * value * Z)) : Z :=
  match counts with
  | [] => 0
  | (k', _, n) :: rest => if key_eqb k k' then n else count_of k rest
  end.

Definition sum_counts (counts : list (key * value * Z)) : Z :=
  fold_right (fun entry acc => snd entry + acc) 0 counts.

Definition type_key (slide : dict) : option key :=
  to_key (Dict.get_default "type" (VStr "unknown") slide).

Fixpoint slides_of_type (k : key) (slides : list dict) : Z :=
  match slides with
  | [] => 0
  | slide :: rest =>
      match type_key slide with
      | Some k' => if key_eqb k k' then 1 + slides_of_type k rest
                   else slides_of_type k rest
      | None => slides_of_type k rest
      end
  end.

(** The values that a [for] loop cannot run over. *)
Definition not_iterable (v : value) : Prop :=
  v = VNone \/ (exists b, v = VBool b) \/ (exists z, v = VInt z).

End Builtins.

End SlideGenerator.

(* ================================================================= *)
(** ** src/templates/layout_suggester.py *)

Module LayoutSuggester.

Definition zone (position size : string) : value :=
  VDict [("position", VStr position); ("size", VStr size)].

Definition layout_entry (name description : string) (elements : list string)
  (zones : dict) : value :=
  VDict [ ("name", VStr name);
          ("description", VStr description);
          ("elements", VList (map VStr elements));
          ("zones", VDict zones) ].

(** [_load_layouts] *)
Definition layouts : dict :=
  [ ("title_slide",
      layout_entry "Title Slide" "Large title and subtitle" ["title"; "subtitle"]
        [("title", zone "top" "large"); ("subtitle", zone "center" "medium")]);
    ("bullet_points",
      layout_entry "Bullet Points" "Title with bullet points" ["title"; "bullet_points"]
        [("title", zone "top" "medium"); ("content", zone "center" "large")]);
    ("chart_slide",
      layout_entry "Chart/Visualization" "Title with chart or image" ["title"; "chart"]
        [("title", zone "top" "small"); ("chart", zone "center" "large")]);
    ("two_column",
      layout_entry "Two Column" "Title with two columns of content"
        ["title"; "left_column"; "right_column"]
        [("title", zone "top" "small"); ("left", zone "left" "medium");
         ("right", zone "right" "medium")]);
    ("image_and_text",
      layout_entry "Image and Text" "Image on one side, text on the other"
        ["title"; "image"; "text"]
        [("title", zone "top" "small"); ("image", zone "left" "large");
         ("text", zone "right" "large")]);
    ("blank", layout_entry "Blank" "Completely blank slide" [] []) ].

Definition suggest_layout (slide : dict) : string :=
  let slide_type := Dict.get_default "type" (VStr "content") slide in
  let content := Dict.get_default "content" (VDict []) slide in
  if eq_str slide_type "title" then "title_slide"
  else if Dict.contains "chart" slide then "chart_slide"
  else if is_dict content then
    if has_key "left_column" content && has_key "right_column" content
    then "two_column"
    else if has_key "image" content && has_key "text" content
    then "image_and_text"
    else if has_key "bullet_points" content
    then "bullet_points"
    else "bullet_points"
  else "bullet_points".

(** The rule table as the specification words it: an ordered list of
    conditions on the slide, each with the layout it selects. *)
Definition spec_is_title (slide : dict) : bool :=
  match Dict.get "type" slide with
  | Some (VStr t) => String.eqb t "title"
  | _ => false
  end.

Definition spec_has_chart (slide : dict) : bool := Dict.contains "chart" slide.

Definition spec_content_has (k : string) (slide : dict) : bool :=
  match Dict.get "content" slide with
  | Some (VDict content) => Dict.contains k content
  | _ => false
  end.

Definition spec_rules : list ((dict -> bool) * string) :=
  [ (spec_is_title, "title_slide");
    (spec_has_chart, "chart_slide");
    (fun slide => spec_content_has "left_column" slide
                  && spec_content_has "right_column" slide, "two_column");
    (fun slide => spec_content_has "image" slide
                  && spec_content_has "text" slide, "image_and_text");
    (spec_content_has "bullet_points", "bullet_points") ].

Fixpoint first_match (rules : list ((dict -> bool) * string)) (default : string)
  (slide : dict) : string :=
  match rules with
  | [] => default
  | (condition, layout) :: rest =>
      if condition slide then layout else first_match rest default slide
  end.

Definition spec_suggest : dict -> string := first_match spec_rules "bullet_points".

(** The six names of the layout catalog. *)
Definition catalog_names : list string :=
  ["title_slide"; "bullet_points"; "chart_slide"; "two_column"; "image_and_text";
   "blank"].

(** [slide['layout']] names an entry of the catalog. *)
Definition layout_in_catalog (slide : dict) : Prop :=
  exists name : string,
    Dict.get "layout" slide = Some (VStr name)
    /\ In name catalog_names
    /\ Dict.contains name layouts = true.

Definition get_layout_details (layout_name : string) : option value :=
  Dict.get layout_name layouts.

Definition get_available_layouts : list string := Dict.keys layouts.

(** [layout['elements']] of an entry of the catalog. *)
Definition layout_elements (layout : value) : list string :=
  match layout with
  | VDict entry =>
      match Dict.get "elements" entry with
      | Some (VList els) =>
          flat_map (fun el => match el with VStr e => [e] | _ => [] end) els
      | _ => []
      end
  | _ => []
  end.

(** [not layout] for the result of [self.layouts.get(layout_name)]. *)
Definition falsy_layout (layout : option value) : bool :=
  match layout with
  | None | Some (VDict []) => true
  | Some _ => false
  end.

Definition validate_content_for_layout (content : dict) (layout_name : string) : bool :=
  let layout := Dict.get layout_name layouts in
  if falsy_layout layout then false
  else
    let required_elements :=
      match layout with Some l => layout_elements l | None => [] end in
    let content_elements := Dict.keys content in
    forallb (fun elem => existsb (String.eqb elem) content_elements) required_elements.

(** [element in content] for a string [element]: a key of a dict, a part
    of a string, an item of a list or tuple; other values raise. *)
Definition element_in (element : string) (content : value) : exn + bool :=
  match content with
  | VDict d => inr (Dict.contains element d)
  | VStr s => inr (PyStr.contains s element)
  | VList l | VTuple l => inr (existsb (fun item => eq_str item element) l)
  | VNone | VBool _ | VInt _ => inl TypeError
  end.

(** The loop of [recommend_modifications]. *)
Fixpoint missing_elements (content : value) (required_elements : list string)
  : exn + list string :=
  match required_elements with
  | [] => inr []
  | element :: rest =>
      match element_in element content with
      | inl e => inl e
      | inr present =>
          match missing_elements content rest with
          | inl e => inl e
          | inr recommendations =>
              inr (if present then recommendations
                   else ("Add " ++ element ++ " to content")%string :: recommendations)
          end
      end
  end.

Definition recommend_modifications (slide : dict) (layout_name : string)
  : exn + list string :=
  let layout := Dict.get layout_name layouts in
  if falsy_layout layout then inr []
  else
    let content := Dict.get_default "content" (VDict []) slide in
    let required_elements :=
      match layout with Some l => layout_elements l | None => [] end in
    missing_elements content required_elements.

Definition content_type_mapping : list (string * string) :=
  [ ("text", "bullet_points");
    ("chart", "chart_slide");
    ("comparison", "two_column");
    ("image", "image_and_text");
    ("title", "title_slide") ].

Definition get_layout_by_content_type (content_type : string) : string :=
  match StrMap.get content_type content_type_mapping with
  | Some layout => layout
  | None => "bullet_points"
  end.

Definition theme_overrides (colors : list string) (font : string) : dict :=
  [("colors", VList (map VStr colors)); ("font", VStr font)].

Definition theme_config : list (string * dict) :=
  [ ("default", theme_overrides ["#1f77b4"; "#ff7f0e"] "Arial");
    ("business", theme_overrides ["#003366"; "#006699"] "Calibri");
    ("minimal", theme_overrides ["#000000"; "#ffffff"] "Helvetica") ].

Definition _get_theme_overrides (theme : string) : dict :=
  match StrMap.get theme theme_config with
  | Some overrides => overrides
  | None => []
  end.

Definition apply_theme (layout theme : string) : dict :=
  match get_layout_details layout with
  | Some (VDict (entry :: entries)) =>
      let themed_layout := entry :: entries in
      match _get_theme_overrides theme with
      | [] => themed_layout
      | theme_overrides =>
          Dict.set "overrides" (VDict theme_overrides)
            (Dict.set "theme" (VStr theme) themed_layout)
      end
  | _ => []
  end.

End LayoutSuggester.

(* ================================================================= *)
(** ** src/visualizations/chart_generator.py *)

Module ChartGenerator.

Inductive ChartType : Type :=
| BAR | LINE | PIE | SCATTER | HISTOGRAM | BOX | AREA.

(** The members of the enum, by name, and their values. *)
Definition ChartType_members : list (string * ChartType) :=
  [ ("BAR", BAR); ("LINE", LINE); ("PIE", PIE); ("SCATTER", SCATTER);
    ("HISTOGRAM", HISTOGRAM); ("BOX", BOX); ("AREA", AREA) ].

Definition ChartType_value (c : ChartType) : string :=
  match c with
  | BAR => "bar" | LINE => "line" | PIE => "pie" | SCATTER => "scatter"
  | HISTOGRAM => "histogram" | BOX => "box" | AREA => "area"
  end.

Definition style (colors : list string) (font_size dpi : Z) (figsize : Z * Z) : value :=
  VDict [ ("colors", VList (map VStr colors));
          ("font_size", VInt font_size);
          ("dpi", VInt dpi);
          ("figsize", VTuple [VInt (fst figsize); VInt (snd figsize)]) ].

Definition default_style : value :=
  style ["#1f77b4"; "#ff7f0e"; "#2ca02c"; "#d62728"; "#9467bd"] 12 100 (10, 6).

(** [_load_chart_styles] *)
Definition chart_styles : dict :=
  [ ("default", default_style);
    ("business",
      style ["#003366"; "#006699"; "#0099cc"; "#00ccff"; "#ccffff"] 14 150 (12, 7));
    ("minimal",
      style ["#000000"; "#404040"; "#808080"; "#c0c0c0"; "#ffffff"] 11 100 (10, 6)) ].

(** The descriptor [chart_config] that [generate_chart] returns. *)
Definition chart_config (chart_type : string) (data : value)
  (theme title : string) (kwargs : dict) : dict :=
  let style :=
    Dict.get_default theme (Dict.get_default "default" VNone chart_styles)
      chart_styles in
  [ ("type", VStr chart_type);
    ("title", VStr title);
    ("data", data);
    ("theme", VStr theme);
    ("style", style);
    ("kwargs", VDict kwargs) ].

Definition generate_chart {S} (chart_type : string) (data : value)
  (theme title : string) (kwargs : dict) : Py S value :=
  match enum_getitem ChartType_members (PyStr.upper chart_type) with
  | None =>
      logger_error ("Unsupported chart type: " ++ chart_type) ;;;
      ret (VDict [])
  | Some chart_enum =>
      let chart_config := chart_config chart_type data theme title kwargs in
      logger_info ("Generated " ++ chart_type ++ " chart with theme " ++ theme) ;;;
      ret (VDict chart_config)
  end.

(** The seven chart types, as the values of the enum, and the test that a
    name is one of them up to case. *)
Definition known_chart_types : list string :=
  ["bar"; "line"; "pie"; "scatter"; "histogram"; "box"; "area"].

Definition matches_known (chart_type : string) : bool :=
  existsb (String.eqb (PyStr.lower chart_type)) known_chart_types.

(** The keywords that [generate_chart] binds itself: a call
    [generate_chart(..., **kwargs)] whose [kwargs] holds one of them is a
    [TypeError]. *)
Definition bound_keywords : list string :=
  ["self"; "chart_type"; "data"; "theme"; "title"].

Definition call_generate_chart {S} (chart_type : string) (data : value)
  (theme title : string) (kwargs : dict) : Py S value :=
  if existsb (fun k => Dict.contains k kwargs) bound_keywords
  then raise TypeError
  else generate_chart chart_type data theme title kwargs.

Definition generate_bar_chart {S} (categories values : value)
  (title theme : string) (kwargs : dict) : Py S value :=
  let data := VDict [("categories", categories); ("values", values)] in
  call_generate_chart "bar" data theme title kwargs.

Definition generate_line_chart {S} (x_data y_data : value)
  (title theme : string) (kwargs : dict) : Py S value :=
  let data := VDict [("x_data", x_data); ("y_data", y_data)] in
  call_generate_chart "line" data theme title kwargs.

Definition generate_pie_chart {S} (labels values : value)
  (title theme : string) (kwargs : dict) : Py S value :=
  let data := VDict [("labels", labels); ("values", values)] in
  call_generate_chart "pie" data theme title kwargs.

Definition generate_scatter_chart {S} (x_data y_data : value)
  (title theme : string) (kwargs : dict) : Py S value :=
  let data := VDict [("x_data", x_data); ("y_data", y_data)] in
  call_generate_chart "scatter" data theme title kwargs.

(** [[chart.value for chart in ChartType]] *)
Definition get_supported_chart_types : list string :=
  map (fun member => ChartType_value (snd member)) ChartType_members.

Definition get_available_themes : list string := Dict.keys chart_styles.

(** What a subscript or an attribute access can raise. *)
Inductive lookup_error : Type :=
| KeyError (k : string)
| AttributeError (attr : string).

(** [d.update(other)] *)
Definition dict_update (d other : dict) : dict :=
  fold_left (fun acc kv => Dict.set (fst kv) (snd kv) acc) other d.

(** [customize_chart]: the chart object as the call leaves it, the log
    record, and the exception when one is raised.  [py_str] is the
    builtin [str()]. *)
Definition customize_chart (py_str : value -> string) (chart : dict)
  (custom_params : dict) : dict * list event * option lookup_error :=
  match Dict.get "kwargs" chart with
  | None => (chart, [], Some (KeyError "kwargs"))
  | Some (VDict kwargs) =>
      let chart' := Dict.set "kwargs" (VDict (dict_update kwargs custom_params)) chart in
      match Dict.get "title" chart' with
      | None => (chart', [], Some (KeyError "title"))
      | Some title =>
          (chart',
           [Log INFO ("Customized chart: " ++ SlideGenerator.format py_str title)],
           None)
      end
  | Some _ => (chart, [], Some (AttributeError "update"))
  end.

End ChartGenerator.

(* ================================================================= *)
(** ** src/data/data_fetcher.py *)

Module DataFetcher.

(** The four private readers: [_fetch_from_url], [_fetch_from_csv],
    [_fetch_from_excel], [_fetch_from_json]. *)
Inductive reader : Type :=
| FromUrl | FromCsv | FromExcel | FromJson.

Section Readers.

(** The data dictionaries that the readers build. *)
Variable data : Type.

(** [self.cached_data] *)
Definition cache : Type := list (string * data).

(** What the [try] block of a reader comes to for a source and keyword
    arguments: the data it builds, [None] when the file is missing or
    anything raises, and the text of the record it logs. *)
Variable read : reader -> string -> dict -> option data * string.

Definition _fetch_from (r : reader) (source : string) (kwargs : dict)
  : Py cache (option data) :=
  match read r source kwargs with
  | (Some d, msg) =>
      c <- get_state ;;
      put_state (StrMap.set source d c) ;;;
      logger_info msg ;;;
      ret (Some d)
  | (None, msg) =>
      logger_error msg ;;;
      ret None
  end.

Definition fetch_data (source : string) (kwargs : dict) : Py cache (option data) :=
  c <- get_state ;;
  match StrMap.get source c with
  | Some d =>
      logger_info ("Using cached data from " ++ source) ;;;
      ret (Some d)
  | None =>
      if PyStr.startswith source "http://" || PyStr.startswith source "https://"
      then _fetch_from FromUrl source kwargs
      else if PyStr.endswith source ".csv"
      then _fetch_from FromCsv source kwargs
      else if PyStr.endswith source ".xlsx" || PyStr.endswith source ".xls"
      then _fetch_from FromExcel source kwargs
      else if PyStr.endswith source ".json"
      then _fetch_from FromJson source kwargs
      else
        logger_error ("Unsupported data source format: " ++ source) ;;;
        ret None
  end.

Definition clear_cache : Py cache unit :=
  put_state [] ;;;
  logger_info "Cleared data cache".

End Readers.

End DataFetcher.

(* ================================================================= *)
(** ** src/agent/presentation_agent.py *)

Module PresentationAgent.

Inductive ExportFormat : Type :=
| POWERPOINT | PDF | GOOGLE_SLIDES | HTML.

Definition ExportFormat_members : list (string * ExportFormat) :=
  [ ("POWERPOINT", POWERPOINT); ("PDF", PDF);
    ("GOOGLE_SLIDES", GOOGLE_SLIDES); ("HTML", HTML) ].

Definition ExportFormat_value (f : ExportFormat) : string :=
  match f with
  | POWERPOINT => "powerpoint" | PDF => "pdf"
  | GOOGLE_SLIDES => "google_slides" | HTML => "html"
  end.

Definition ExportFormat_eqb (a b : ExportFormat) : bool :=
  match a, b with
  | POWERPOINT, POWERPOINT | PDF, PDF | GOOGLE_SLIDES, GOOGLE_SLIDES | HTML, HTML => true
  | _, _ => false
  end.

(** The four format names, as the values of the enum, and the test that a
    name is one of them up to case. *)
Definition known_formats : list string :=
  ["powerpoint"; "pdf"; "google_slides"; "html"].

Definition format_known (format_type : string) : bool :=
  existsb (String.eqb (PyStr.lower format_type)) known_formats.

(** The fields of a [PresentationAgent] that its methods read and write. *)
Record agent : Type := {
  theme : string;
  verbose : bool;
  slides : list dict;
  metadata : dict
}.

Definition set_slides (sl : list dict) (a : agent) : agent :=
  {| theme := theme a; verbose := verbose a; slides := sl; metadata := metadata a |}.

Definition set_metadata (m : dict) (a : agent) : agent :=
  {| theme := theme a; verbose := verbose a; slides := slides a; metadata := m |}.

Definition modify (f : agent -> agent) : Py agent unit :=
  fun a => Done tt (f a) [].

(** [return self]: the caller gets the agent as the method leaves it. *)
Definition return_self : Py agent agent := get_state.

(** [__init__] *)
Definition init (theme : string) (verbose : bool) : agent * list event :=
  ({| theme := theme; verbose := verbose; slides := []; metadata := [] |},
   [Log INFO ("PresentationAgent initialized with theme: " ++ theme)]).

(** [for slide in self.slides: slide[...] = ...]: the slides are changed
    in place, one after the other, up to the first that raises. *)
Fixpoint mutate_each (body : dict -> exn + dict) (sl : list dict)
  : list dict * option exn :=
  match sl with
  | [] => ([], None)
  | slide :: rest =>
      match body slide with
      | inr slide' =>
          let (rest', e) := mutate_each body rest in (slide' :: rest', e)
      | inl e => (slide :: rest, Some e)
      end
  end.

Definition for_slides (body : dict -> exn + dict) : Py agent unit :=
  a <- get_state ;;
  let (sl, e) := mutate_each body (slides a) in
  put_state (set_slides sl a) ;;;
  match e with
  | Some e => raise e
  | None => ret tt
  end.

Section Collaborators.

(** The builtin [str()]. *)
Variable py_str : value -> string.

(** [exporter.export(slides, metadata, output_path, theme, **kwargs)] of
    the exporter object registered for a format. *)
Variable exporter_export :
  ExportFormat -> list dict -> dict -> string -> string -> dict -> bool.

Definition exporter : Type := list dict -> dict -> string -> string -> dict -> bool.

(** [self.exporters] *)
Definition exporters : list (ExportFormat * exporter) :=
  [ (POWERPOINT, exporter_export POWERPOINT);
    (PDF, exporter_export PDF);
    (GOOGLE_SLIDES, exporter_export GOOGLE_SLIDES);
    (HTML, exporter_export HTML) ].

(** [self.exporters.get(format_enum)] *)
Fixpoint exporters_get (es : list (ExportFormat * exporter)) (f : ExportFormat)
  : option exporter :=
  match es with
  | [] => None
  | (f', e) :: rest => if ExportFormat_eqb f f' then Some e else exporters_get rest f
  end.

Definition _generate_speaker_notes : Py agent unit :=
  for_slides (fun slide =>
    match SlideGenerator.generate_speaker_notes py_str slide with
    | inr notes => inr (Dict.set "speaker_notes" (VStr notes) slide)
    | inl e => inl e
    end) ;;;
  logger_info "Generated speaker notes for all slides".

Definition generate_speaker_notes : Py agent agent :=
  _generate_speaker_notes ;;;
  return_self.

Definition create_from_text (title : string) (sections : list string)
  (data_source : option string) (speaker_notes : bool) : Py agent agent :=
  logger_info ("Creating presentation: " ++ title) ;;;
  modify (fun a => set_metadata (Dict.set "title" (VStr title) (metadata a)) a) ;;;
  sl <- SlideGenerator.generate_slides_from_text title sections ;;
  modify (set_slides sl) ;;;
  match data_source with
  | Some source =>
      if String.eqb source "" then ret tt
      else emit (CallFetch source) ;;; logger_info ("Loaded data from " ++ source)
  | None => ret tt
  end ;;;
  for_slides (fun slide =>
    let suggested_layout := LayoutSuggester.suggest_layout slide in
    inr (Dict.set "layout" (VStr suggested_layout) slide)) ;;;
  (if speaker_notes then _generate_speaker_notes else ret tt) ;;;
  a <- get_state ;;
  logger_info ("Created " ++ PyStr.of_Z (PyList.len (slides a)) ++ " slides") ;;;
  return_self.

Definition add_chart (slide_index : Z) (chart_type : string) (data : value)
  : Py agent agent :=
  a <- get_state ;;
  if slide_index >=? PyList.len (slides a) then
    logger_error ("Slide index " ++ PyStr.of_Z slide_index ++ " out of range") ;;;
    return_self
  else
    chart <- ChartGenerator.generate_chart chart_type data (theme a) "" [] ;;
    match PyList.norm_index (slides a) slide_index with
    | None => raise IndexError
    | Some n =>
        modify (set_slides (PyList.update n (Dict.set "chart" chart) (slides a))) ;;;
        logger_info ("Added " ++ chart_type ++ " chart to slide "
                     ++ PyStr.of_Z slide_index) ;;;
        return_self
    end.

Definition export (format_type output_path : string) (kwargs : dict)
  : Py agent bool :=
  match enum_getitem ExportFormat_members (PyStr.upper format_type) with
  | None =>
      logger_error ("Unsupported export format: " ++ format_type) ;;;
      ret false
  | Some format_enum =>
      match exporters_get exporters format_enum with
      | None =>
          logger_error ("Exporter not found for format: " ++ format_type) ;;;
          ret false
      | Some exporter =>
          a <- get_state ;;
          emit (CallExport (ExportFormat_value format_enum) output_path) ;;;
          let success :=
            exporter (slides a) (metadata a) output_path (theme a) kwargs in
          (if success
           then logger_info ("Successfully exported to " ++ output_path)
           else logger_error ("Export to " ++ output_path ++ " failed")) ;;;
          ret success
      end
  end.

Definition get_slides : Py agent (list dict) :=
  a <- get_state ;; ret (slides a).

Definition get_metadata : Py agent dict :=
  a <- get_state ;; ret (metadata a).

End Collaborators.

(** The step of the layout loop and of the notes loop on one slide. *)
Definition with_layout (slide : dict) : dict :=
  Dict.set "layout" (VStr (LayoutSuggester.suggest_layout slide)) slide.

Definition with_notes (py_str : value -> string) (slide : dict) : dict :=
  match SlideGenerator.generate_speaker_notes py_str slide with
  | inr notes => Dict.set "speaker_notes" (VStr notes) slide
  | inl _ => slide
  end.

(** The slides of a deck made from a title and sections, with or without
    notes, and the agent that holds them. *)
Definition deck_slides (py_str : value -> string) (title : string)
  (sections : list string) (speaker_notes : bool) : list dict :=
  let laid_out := map with_layout (SlideGenerator.slides_from_text title sections) in
  if speaker_notes then map (with_notes py_str) laid_out else laid_out.

Definition created (py_str : value -> string) (title : string)
  (sections : list string) (speaker_notes : bool) (a : agent) : agent :=
  {| theme := theme a;
     verbose := verbose a;
     slides := deck_slides py_str title sections speaker_notes;
     metadata := Dict.set "title" (VStr title) (metadata a) |}.

End PresentationAgent.

(* ================================================================= *)
(** ** Sample inputs *)

Module Samples.

Definition newline : string := String PyStr.LF EmptyString.

(** A section of three lines: a title, a heading and a blank line. *)
Definition heading_section : string :=
  ("Plan" ++ newline ++ "# details" ++ newline ++ "   ")%string.

(** The two sections of the end-to-end scenario of the specification. *)
Definition revenue_section : string :=
  ("Revenue" ++ newline ++ "Grew 12%" ++ newline ++ "New markets opened")%string.

Definition heading_only_section : string := "# heading only line".

(** A slide of type ['title'] that also carries a chart and two columns. *)
Definition crowded_title_slide : dict :=
  [ ("type", VStr "title");
    ("chart", VDict [("type", VStr "pie")]);
    ("content", VDict [("left_column", VStr "a"); ("right_column", VStr "b")]) ].

(** [{labels: ['A', 'B'], values: [1, 2]}] *)
Definition pie_data : value :=
  VDict [ ("labels", VList [VStr "A"; VStr "B"]);
          ("values", VList [VInt 1; VInt 2]) ].

(** Two slides whose contents are plain text, of two words and of one. *)
Definition text_slides : list dict :=
  [ [("type", VStr "content"); ("content", VStr "two words")];
    [("type", VStr "title"); ("content", VStr "one")] ].

(** A deck of two slides, as [create_from_text] leaves it. *)
Definition two_slides : PresentationAgent.agent :=
  {| PresentationAgent.theme := "default";
     PresentationAgent.verbose := false;
     PresentationAgent.slides :=
       SlideGenerator.slides_from_text "Q1 Review" ["Revenue"];
     PresentationAgent.metadata := [("title", VStr "Q1 Review")] |}.

(** The builtin [str()] replaced by a stand-in, for slides whose texts are
    all strings. *)
Definition no_str : value -> string := fun _ => EmptyString.

(** The slides of a deck of one section, before and after the notes. *)
Definition revenue_slides : list dict :=
  SlideGenerator.slides_from_text "Q1 Review" [revenue_section].

Definition revenue_slides_with_notes : list dict :=
  map (PresentationAgent.with_notes no_str) revenue_slides.

(** A slide whose bullet points are [None]. *)
Definition broken_slide : dict :=
  [ ("title", VStr "Broken");
    ("content", VDict [("bullet_points", VNone)]) ].

(** A content that fits the two-column layout, and the slide that holds it. *)
Definition columns_content : dict :=
  [("title", VStr "Compare"); ("left_column", VStr "a"); ("right_column", VStr "b")].

Definition columns_slide : dict :=
  [("type", VStr "comparison"); ("content", VDict columns_content)].

(** A bar chart descriptor, as [generate_chart] builds it with one extra
    keyword, and keywords to customize it with. *)
Definition bar_descriptor : dict :=
  ChartGenerator.chart_config "bar" VNone "default" "Sales" [("width", VInt 3)].

Definition custom_params : dict := [("width", VInt 5); ("legend", VBool true)].

(** A reader that finds the number 7 in any CSV file and nothing else. *)
Definition csv_reader (r : DataFetcher.reader) (source : string) (kwargs : dict)
  : option Z * string :=
  match r with
  | DataFetcher.FromCsv => (Some 7, "Fetched CSV data from " ++ source)%string
  | _ => (None, "Error fetching data from " ++ source)%string
  end.

(** A reader that finds nothing. *)
Definition failing_reader (r : DataFetcher.reader) (source : string) (kwargs : dict)
  : option Z * string :=
  (None, "Error fetching data from " ++ source)%string.

(** A slide whose type is a list, which cannot be a dictionary key. *)
Definition list_typed_slide : dict := [("type", VList [VStr "content"])].

End Samples.

(* ================================================================= *)
(** ** Outcomes of a method *)

(** [returns m s Q]: from the state [s] the method [m] returns, without
    raising, a value and a final state that satisfy [Q]. *)
Definition returns {S A} (m : Py S A) (s : S) (Q : A -> S -> Prop) : Prop :=
  exists (a : A) (s' : S) (tr : list event), m s = Done a s' tr /\ Q a s'.

(* ================================================================= *)
(** * Properties *)

(** ** Stripping and splitting *)

Module PyStrFacts.
Import PyStr.

Lemma isspace_LF : isspace LF = true.
Proof. reflexivity. Qed.

Lemma eqb_LF_isspace (c : ascii) : Ascii.eqb c LF = true -> isspace c = true.
Proof. intros H. apply Ascii.eqb_eq in H. subst c. reflexivity. Qed.

Lemma split_not_nil (sep : ascii) (s : string) : split sep s <> [].
Proof.
  induction s as [|c s IH]; simpl; [discriminate|].
  destruct (Ascii.eqb c sep); [discriminate|].
  destruct (split sep s); discriminate.
Qed.

Lemma split_cons (sep : ascii) (s : string) :
  exists l ls, split sep s = l :: ls.
Proof.
  destruct (split sep s) as [|l ls] eqn:E.
  - now apply split_not_nil in E.
  - now exists l, ls.
Qed.

(** Stripping at the left drops whole leading lines only: the lines after
    the first that remain are the last lines of the original text. *)
Lemma lstrip_split_suffix (s : string) :
  exists pre : list string,
    tl (split LF s) = pre ++ tl (split LF (lstrip s)).
Proof.
  induction s as [|c s [pre IH]].
  - now exists [].
  - simpl lstrip. destruct (isspace c) eqn:Hsp.
    + simpl split. destruct (Ascii.eqb c LF) eqn:Hlf.
      * destruct (split_cons LF s) as (l & ls & E).
        rewrite E in IH |- *. simpl in IH |- *.
        exists (l :: pre). now rewrite IH.
      * destruct (split_cons LF s) as (l & ls & E).
        rewrite E in IH |- *. simpl in IH |- *.
        now exists pre.
    + now exists [].
Qed.

Lemma rstrip_cons_space (c : ascii) (s : string) :
  isspace c = true -> rstrip s = EmptyString -> rstrip (String c s) = EmptyString.
Proof. intros Hc Hs. simpl. now rewrite Hs, Hc. Qed.

Lemma rstrip_cons_congr (c : ascii) (a b : string) :
  rstrip a = rstrip b -> rstrip (String c a) = rstrip (String c b).
Proof. intros H. simpl. now rewrite H. Qed.

Lemma lstrip_rstrip (s : string) : lstrip (rstrip s) = rstrip (lstrip s).
Proof.
  induction s as [|c s IH]; [reflexivity|].
  simpl. destruct (isspace c) eqn:Hsp.
  - rewrite <- IH. destruct (rstrip s) as [|c' r]; simpl; [reflexivity|].
    now rewrite Hsp.
  - simpl. destruct (rstrip s) as [|c' r]; simpl; now rewrite Hsp.
Qed.

Lemma strip_same_rstrip (a b : string) : rstrip a = rstrip b -> strip a = strip b.
Proof.
  intros H. unfold strip. now rewrite <- !lstrip_rstrip, H.
Qed.

(** Stripping at the right keeps a prefix of the lines, each of them equal
    to the original line up to the spaces at its end. *)
Lemma rstrip_split_prefix (s : string) :
  exists l1 l2 : list string,
    split LF s = l1 ++ l2
    /\ Forall2 (fun a b => rstrip a = rstrip b) (split LF (rstrip s)) l1.
Proof.
  induction s as [|c s (l1 & l2 & Hs & Hrel)].
  - exists [EmptyString], []. split; [reflexivity | repeat constructor].
  - simpl rstrip. destruct (rstrip s) as [|c' r] eqn:Hr.
    + (* everything after [c] is stripped away *)
      simpl in Hrel. inversion Hrel as [|a x la lx Hax Hnil]; subst.
      inversion Hnil; subst. simpl in Hax. simpl in Hs.
      assert (Hx : rstrip x = EmptyString) by now symmetry.
      destruct (isspace c) eqn:Hsp.
      * simpl split. destruct (Ascii.eqb c LF).
        -- exists [EmptyString], (split LF s).
           split; [reflexivity | repeat constructor].
        -- rewrite Hs. exists [String c x], l2.
           split; [reflexivity|]. repeat constructor.
           simpl. now rewrite Hx, Hsp.
      * simpl split. destruct (Ascii.eqb c LF) eqn:Hlf.
        { apply eqb_LF_isspace in Hlf. congruence. }
        rewrite Hs. exists [String c x], l2.
        split; [reflexivity|]. repeat constructor.
        simpl. now rewrite Hx, Hsp.
    + assert (Hsplit : split LF (String c (String c' r))
                       = if Ascii.eqb c LF
                         then EmptyString :: split LF (String c' r)
                         else match split LF (String c' r) with
                              | l :: ls => String c l :: ls
                              | [] => [String c EmptyString]
                              end) by reflexivity.
      rewrite Hsplit. clear Hsplit.
      simpl split at 1. destruct (Ascii.eqb c LF).
      * exists (EmptyString :: l1), l2. split.
        -- simpl. now rewrite Hs.
        -- constructor; [reflexivity | assumption].
      * destruct (split_cons LF (String c' r)) as (h' & t' & E').
        rewrite E' in Hrel |- *.
        inversion Hrel as [|a x la lx Hax Hrest]; subst.
        rewrite Hs. simpl. exists (String c x :: lx), l2.
        split; [reflexivity|].
        constructor; [now apply rstrip_cons_congr | assumption].
Qed.

(** The lines of a stripped text, after the first, are lines of the text
    itself, after its first, up to the spaces at their ends. *)
Lemma strip_body_lines (P : string -> Prop) (s : string) :
  (forall a b, rstrip a = rstrip b -> P b -> P a) ->
  Forall P (tl (split LF s)) ->
  Forall P (tl (split LF (strip s))).
Proof.
  intros Hcompat Hall.
  destruct (lstrip_split_suffix s) as [pre Hpre].
  rewrite Hpre in Hall. apply Forall_app in Hall as [_ Hall].
  unfold strip.
  destruct (rstrip_split_prefix (lstrip s)) as (l1 & l2 & Hs & Hrel).
  rewrite Hs in Hall.
  destruct Hrel as [|a x la lx Hax Hrest]; [constructor|].
  simpl in Hall |- *. apply Forall_app in Hall as [Hall _].
  clear Hs Hax. induction Hrest as [|a' x' la' lx' Hax' Hrest' IH].
  - constructor.
  - inversion Hall; subst. constructor; [eapply Hcompat; eauto | auto].
Qed.

Lemma upper_lower (s : string) : upper (lower s) = upper s.
Proof.
  induction s as [|c s IH]; [reflexivity|].
  unfold upper, lower in *. simpl. rewrite IH. f_equal.
  destruct c as [[] [] [] [] [] [] [] []]; reflexivity.
Qed.

Lemma lower_upper (s : string) : lower (upper s) = lower s.
Proof.
  induction s as [|c s IH]; [reflexivity|].
  unfold upper, lower in *. simpl. rewrite IH. f_equal.
  destruct c as [[] [] [] [] [] [] [] []]; reflexivity.
Qed.

End PyStrFacts.

(** ** The deck model builder *)

Module SlideGeneratorFacts.
Import SlideGenerator.

Lemma content_slides_length (sections : list string) (i0 : Z) :
  List.length (content_slides i0 sections) = List.length sections.
Proof.
  revert i0; induction sections as [|section rest IH]; intros i0; simpl.
  - reflexivity.
  - now rewrite IH.
Qed.

Lemma content_slides_nth (sections : list string) :
  forall (i0 : Z) (i : nat) (section : string),
    nth_error sections i = Some section ->
    nth_error (content_slides i0 sections) i
    = Some (_parse_section_to_slide section (i0 + Z.of_nat i)).
Proof.
  induction sections as [|s0 rest IH]; intros i0 i section Hnth.
  - destruct i; discriminate.
  - destruct i as [|i]; simpl in *.
    + injection Hnth as ->. now rewrite Z.add_0_r.
    + rewrite (IH (i0 + 1) i section Hnth). do 2 f_equal. lia.
Qed.

Lemma parse_section_id (section : string) (slide_id : Z) :
  Dict.get "id" (_parse_section_to_slide section slide_id) = Some (VInt slide_id).
Proof. reflexivity. Qed.

(** C1. For every title and every list of N sections (empty or not),
    [generate_slides_from_text] returns, without raising and without
    touching the caller's state, exactly N+1 slides: the first is the
    title slide, with id 0, type ['title'] and content
    [{heading: title, subheading: 'Auto-generated Presentation'}]; the
    slide at position k (1 <= k <= N) is the one parsed from the k-th
    section and carries the id k. *)
Theorem generate_slides_from_text_shape {S : Type} (title : string)
  (sections : list string) (s : S) :
  exists (slides : list dict) (tr : list event),
    generate_slides_from_text title sections s = Done slides s tr
    /\ List.length slides = Datatypes.S (List.length sections)
    /\ (exists first : dict,
          nth_error slides 0 = Some first
          /\ Dict.get "id" first = Some (VInt 0)
          /\ Dict.get "type" first = Some (VStr "title")
          /\ Dict.get "content" first
             = Some (VDict [ ("heading", VStr title);
                             ("subheading", VStr "Auto-generated Presentation") ]))
    /\ (forall (i : nat) (section : string),
          nth_error sections i = Some section ->
          exists slide : dict,
            nth_error slides (Datatypes.S i) = Some slide
            /\ slide = _parse_section_to_slide section (Z.of_nat i + 1)
            /\ Dict.get "id" slide = Some (VInt (Z.of_nat i + 1))).
Proof.
  exists (slides_from_text title sections). eexists.
  split; [reflexivity|].
  split; [simpl; now rewrite content_slides_length|].
  split.
  - exists (title_slide title). repeat split; reflexivity.
  - intros i section Hnth.
    exists (_parse_section_to_slide section (Z.of_nat i + 1)).
    split; [|split; reflexivity].
    simpl. rewrite (content_slides_nth sections 1 i section Hnth).
    do 2 f_equal. lia.
Qed.

Lemma collect_bullets_none (lines : list string) :
  Forall no_bullet lines -> collect_bullets lines = [].
Proof.
  induction 1 as [|line rest Hline _ IH]; [reflexivity|].
  simpl. rewrite IH.
  destruct Hline as [Hblank | Hhash].
  - unfold PyStr.blank in Hblank.
    destruct (PyStr.strip line); [reflexivity | discriminate].
  - rewrite Hhash. now rewrite andb_false_r.
Qed.

Lemma no_bullet_same_rstrip (a b : string) :
  PyStr.rstrip a = PyStr.rstrip b -> no_bullet b -> no_bullet a.
Proof.
  intros H. apply PyStrFacts.strip_same_rstrip in H.
  unfold no_bullet, PyStr.blank. now rewrite H.
Qed.

Lemma section_bullets_not_nil (section : string) : section_bullets section <> [].
Proof.
  unfold section_bullets.
  destruct (collect_bullets (tl (section_lines section))); discriminate.
Qed.

(** C5. When every line of a section after its first is blank or, once
    trimmed, starts with ['#'] (in particular when all of them are blank,
    or all of them are headings), the slide parsed from it has the bullet
    list [[section]], the section text itself, unchanged.  And whatever the
    section is, the bullet list of its slide is never empty. *)
Theorem parse_section_fallback (section : string) (slide_id : Z) :
  (Forall no_bullet (tl (PyStr.split PyStr.LF section)) ->
   bullet_points (_parse_section_to_slide section slide_id)
   = Some (VList [VStr section]))
  /\ (exists (b : value) (bs : list value),
        bullet_points (_parse_section_to_slide section slide_id)
        = Some (VList (b :: bs))).
Proof.
  split.
  - intros Hbody.
    apply (PyStrFacts.strip_body_lines no_bullet section no_bullet_same_rstrip)
      in Hbody.
    unfold bullet_points, _parse_section_to_slide. simpl.
    unfold section_bullets, section_lines.
    now rewrite (collect_bullets_none _ Hbody).
  - unfold bullet_points, _parse_section_to_slide. simpl.
    pose proof (section_bullets_not_nil section) as Hne.
    destruct (section_bullets section) as [|b bs]; [congruence|].
    now exists (VStr b), (map VStr bs).
Qed.

Lemma parse_section_fallback_witness :
  Forall no_bullet (tl (PyStr.split PyStr.LF Samples.heading_section))
  /\ bullet_points (_parse_section_to_slide Samples.heading_section 1)
     = Some (VList [VStr Samples.heading_section]).
Proof.
  assert (Hbody : Forall no_bullet
                    (tl (PyStr.split PyStr.LF Samples.heading_section))).
  { constructor; [right; reflexivity|].
    constructor; [left; reflexivity | constructor]. }
  split; [exact Hbody|].
  exact (proj1 (parse_section_fallback Samples.heading_section 1) Hbody).
Defined.

Lemma tally_total (py_str : value -> string) (slides : list dict) :
  Forall type_hashable slides ->
  forall (counts : list (key * value * Z)) (total : Z),
  exists counts' : list (key * value * Z),
    tally py_str slides counts total
    = inr (counts', total + total_words py_str slides).
Proof.
  induction 1 as [|slide rest Hslide _ IH]; intros counts total; simpl.
  - exists counts. now rewrite Z.add_0_r.
  - unfold type_hashable in Hslide.
    destruct (to_key (Dict.get_default "type" (VStr "unknown") slide)) as [k|];
      [|congruence].
    destruct (IH (count_up k (Dict.get_default "type" (VStr "unknown") slide) counts)
                 (total + content_length py_str slide)) as [counts' ->].
    exists counts'. do 2 f_equal. lia.
Qed.

(** C9. On the empty list [get_slide_statistics] returns [total_slides = 0]
    and the integer 0 as average, with no division.  On any list whose
    slide types are hashable it returns the slide count and, for a count
    above zero, the quotient of the total number of words of the contents
    by the slide count. *)
Theorem get_slide_statistics_average (py_str : value -> string)
  (slides : list dict) :
  get_slide_statistics py_str []
  = inr {| total_slides := 0; slide_types := []; average_content_length := NInt 0 |}
  /\ (Forall type_hashable slides ->
      exists st : statistics,
        get_slide_statistics py_str slides = inr st
        /\ total_slides st = PyList.len slides
        /\ average_content_length st
           = if PyList.len slides >? 0
             then NFloat (Qmake (total_words py_str slides)
                                (Z.to_pos (PyList.len slides)))
             else NInt 0).
Proof.
  split; [reflexivity|].
  intros Hhash. unfold get_slide_statistics.
  destruct (tally_total py_str slides Hhash [] 0) as [counts ->].
  eexists. split; [reflexivity|]. split; reflexivity.
Qed.

Lemma get_slide_statistics_average_witness :
  Forall type_hashable Samples.text_slides
  /\ exists st : statistics,
       get_slide_statistics (fun _ => EmptyString) Samples.text_slides = inr st
       /\ total_slides st = 2
       /\ average_content_length st = NFloat (Qmake 3 2).
Proof.
  assert (Hhash : Forall type_hashable Samples.text_slides)
    by (repeat constructor; discriminate).
  split; [exact Hhash|].
  exact (proj2 (get_slide_statistics_average (fun _ => EmptyString)
                  Samples.text_slides) Hhash).
Defined.

(** The end-to-end scenario of the specification. *)
Example q1_review_slides :
  map (fun slide => (Dict.get "id" slide, Dict.get "title" slide, bullet_points slide))
      (slides_from_text "Q1 Review"
         [Samples.revenue_section; Samples.heading_only_section])
  = [ (Some (VInt 0), Some (VStr "Q1 Review"), None);
      (Some (VInt 1), Some (VStr "Revenue"),
       Some (VList [VStr "Grew 12%"; VStr "New markets opened"]));
      (Some (VInt 2), Some (VStr "# heading only line"),
       Some (VList [VStr "# heading only line"])) ].
Proof. reflexivity. Qed.

End SlideGeneratorFacts.

(** ** The layout advisor *)

Module LayoutSuggesterFacts.
Import LayoutSuggester.

Lemma spec_is_title_code (slide : dict) :
  eq_str (Dict.get_default "type" (VStr "content") slide) "title"
  = spec_is_title slide.
Proof.
  unfold spec_is_title, Dict.get_default.
  destruct (Dict.get "type" slide) as [[]|]; reflexivity.
Qed.

Lemma spec_content_has_code (k : string) (slide : dict) :
  has_key k (Dict.get_default "content" (VDict []) slide) = spec_content_has k slide.
Proof.
  unfold spec_content_has, Dict.get_default.
  destruct (Dict.get "content" slide) as [[]|]; reflexivity.
Qed.

(** C2. [suggest_layout] is the first-match evaluation of the ordered rule
    table (title, chart, two columns, image and text, bullet points) with
    the default ['bullet_points']; and a slide whose type is ['title'] gets
    ['title_slide'] whatever else it carries. *)
Theorem suggest_layout_first_match (slide : dict) :
  suggest_layout slide = spec_suggest slide
  /\ (Dict.get "type" slide = Some (VStr "title") ->
      suggest_layout slide = "title_slide").
Proof.
  assert (Hrules : suggest_layout slide = spec_suggest slide).
  { unfold suggest_layout, spec_suggest, spec_rules, first_match.
    rewrite spec_is_title_code, !spec_content_has_code.
    unfold spec_has_chart.
    destruct (spec_is_title slide); [reflexivity|].
    destruct (Dict.contains "chart" slide); [reflexivity|].
    destruct (is_dict (Dict.get_default "content" (VDict []) slide)) eqn:Hdict;
      [reflexivity|].
    assert (Hno : forall k, spec_content_has k slide = false).
    { intros k. rewrite <- spec_content_has_code.
      destruct (Dict.get_default "content" (VDict []) slide);
        try reflexivity; discriminate. }
    now rewrite !Hno. }
  split; [exact Hrules|].
  intros Htype. rewrite Hrules.
  unfold spec_suggest, spec_rules, first_match, spec_is_title.
  now rewrite Htype.
Qed.

Lemma suggest_layout_first_match_witness :
  Dict.get "type" Samples.crowded_title_slide = Some (VStr "title")
  /\ suggest_layout Samples.crowded_title_slide = "title_slide".
Proof.
  split; [reflexivity|].
  exact (proj2 (suggest_layout_first_match Samples.crowded_title_slide) eq_refl).
Defined.

Lemma suggest_layout_cases (slide : dict) :
  In (suggest_layout slide)
     ["title_slide"; "chart_slide"; "two_column"; "image_and_text"; "bullet_points"].
Proof.
  unfold suggest_layout.
  repeat match goal with
         | |- context [if ?b then _ else _] => destruct b
         end; simpl; tauto.
Qed.

Lemma catalog_names_layouts : get_available_layouts = catalog_names.
Proof. reflexivity. Qed.

Lemma suggest_layout_in_catalog (slide : dict) :
  In (suggest_layout slide) catalog_names
  /\ Dict.contains (suggest_layout slide) layouts = true.
Proof.
  pose proof (suggest_layout_cases slide) as H. simpl in H.
  destruct H as [H|[H|[H|[H|[H|[]]]]]]; rewrite <- H; split; simpl; auto 10.
Qed.

End LayoutSuggesterFacts.

(** ** Names of enum members, up to case *)

Module EnumFacts.
Import PyStr.

Lemma upper_of_lower (s v : string) : lower s = v -> upper s = upper v.
Proof. intros <-. now rewrite PyStrFacts.upper_lower. Qed.

Lemma lower_of_upper (s n : string) : upper s = n -> lower s = lower n.
Proof. intros <-. now rewrite PyStrFacts.lower_upper. Qed.

Ltac by_member_name :=
  repeat match goal with
         | H : (if String.eqb ?a ?b then _ else _) = Some _ |- _ =>
             let E := fresh "E" in
             destruct (String.eqb a b) eqn:E;
             [apply String.eqb_eq in E; apply lower_of_upper in E;
              simpl in E; rewrite E; reflexivity |]
         end.

Ltac by_member_value :=
  repeat match goal with
         | H : (String.eqb ?a ?b || _)%bool = true |- _ =>
             let E := fresh "E" in
             destruct (String.eqb a b) eqn:E;
             [apply String.eqb_eq in E; apply upper_of_lower in E;
              simpl in E; rewrite E; eexists; reflexivity | simpl in H]
         end.

(** A chart type matches one of the seven values up to case exactly when
    its upper-case form is the name of a member of [ChartType]. *)
Lemma chart_type_lookup (chart_type : string) :
  ChartGenerator.matches_known chart_type = true
  <-> exists e, enum_getitem ChartGenerator.ChartType_members (upper chart_type) = Some e.
Proof.
  unfold ChartGenerator.matches_known, ChartGenerator.known_chart_types. split.
  - intros H. simpl in H. by_member_value. discriminate.
  - intros [e H]. simpl in H. simpl. by_member_name. discriminate.
Qed.

Lemma chart_type_unknown (chart_type : string) :
  ChartGenerator.matches_known chart_type = false ->
  enum_getitem ChartGenerator.ChartType_members (upper chart_type) = None.
Proof.
  intros H.
  destruct (enum_getitem ChartGenerator.ChartType_members (upper chart_type))
    as [e|] eqn:E; [|reflexivity].
  assert (Hk : ChartGenerator.matches_known chart_type = true)
    by (apply chart_type_lookup; now exists e).
  congruence.
Qed.

Lemma format_lookup (format_type : string) :
  PresentationAgent.format_known format_type = true
  <-> exists e,
        enum_getitem PresentationAgent.ExportFormat_members (upper format_type)
        = Some e.
Proof.
  unfold PresentationAgent.format_known, PresentationAgent.known_formats. split.
  - intros H. simpl in H. by_member_value. discriminate.
  - intros [e H]. simpl in H. simpl. by_member_name. discriminate.
Qed.

Lemma format_unknown (format_type : string) :
  PresentationAgent.format_known format_type = false ->
  enum_getitem PresentationAgent.ExportFormat_members (upper format_type) = None.
Proof.
  intros H.
  destruct (enum_getitem PresentationAgent.ExportFormat_members (upper format_type))
    as [e|] eqn:E; [|reflexivity].
  assert (Hk : PresentationAgent.format_known format_type = true)
    by (apply format_lookup; now exists e).
  congruence.
Qed.

End EnumFacts.

(** ** The chart descriptor builder *)

Module ChartGeneratorFacts.
Import ChartGenerator.

Lemma generate_chart_known {S : Type} (chart_type : string) (data : value)
  (theme title : string) (kwargs : dict) (s : S) :
  matches_known chart_type = true ->
  generate_chart chart_type data theme title kwargs s
  = Done (VDict (chart_config chart_type data theme title kwargs)) s
      [Log INFO ("Generated " ++ chart_type ++ " chart with theme " ++ theme)].
Proof.
  intros H. apply EnumFacts.chart_type_lookup in H as [e He].
  unfold generate_chart. now rewrite He.
Qed.

Lemma generate_chart_unknown {S : Type} (chart_type : string) (data : value)
  (theme title : string) (kwargs : dict) (s : S) :
  matches_known chart_type = false ->
  generate_chart chart_type data theme title kwargs s
  = Done (VDict []) s [Log ERROR ("Unsupported chart type: " ++ chart_type)].
Proof.
  intros H. apply EnumFacts.chart_type_unknown in H.
  unfold generate_chart. now rewrite H.
Qed.

(** C7. With a chart type that matches one of the seven known ones and a
    theme that is not a key of the style table, [generate_chart] returns a
    descriptor (it neither raises nor reports an error) whose style is the
    entry of the table under ['default']. *)
Theorem generate_chart_unknown_theme {S : Type} (chart_type : string)
  (data : value) (theme title : string) (kwargs : dict) (s : S) :
  matches_known chart_type = true ->
  Dict.contains theme chart_styles = false ->
  exists descriptor : dict,
    generate_chart chart_type data theme title kwargs s
    = Done (VDict descriptor) s
        [Log INFO ("Generated " ++ chart_type ++ " chart with theme " ++ theme)]
    /\ Dict.get "type" descriptor = Some (VStr chart_type)
    /\ Dict.get "theme" descriptor = Some (VStr theme)
    /\ Dict.get "style" descriptor = Dict.get "default" chart_styles
    /\ Dict.get "style" descriptor = Some default_style.
Proof.
  intros Hknown Htheme.
  exists (chart_config chart_type data theme title kwargs).
  split; [now apply generate_chart_known|].
  assert (Hstyle : Dict.get "style" (chart_config chart_type data theme title kwargs)
                   = Some default_style).
  { change (Dict.get "style" (chart_config chart_type data theme title kwargs))
      with (Some (Dict.get_default theme
                    (Dict.get_default "default" VNone chart_styles) chart_styles)).
    unfold Dict.contains in Htheme. unfold Dict.get_default at 1.
    destruct (Dict.get theme chart_styles); [discriminate | reflexivity]. }
  repeat split; try reflexivity; exact Hstyle.
Qed.

(** The end-to-end scenario of the specification: a pie chart, in upper
    case, with the theme ['unknown_theme']. *)
Lemma generate_chart_unknown_theme_witness :
  matches_known "PIE" = true
  /\ Dict.contains "unknown_theme" chart_styles = false
  /\ exists descriptor : dict,
    generate_chart "PIE" Samples.pie_data "unknown_theme" "" [] tt
    = Done (VDict descriptor) tt
        [Log INFO "Generated PIE chart with theme unknown_theme"]
    /\ Dict.get "type" descriptor = Some (VStr "PIE")
    /\ Dict.get "theme" descriptor = Some (VStr "unknown_theme")
    /\ Dict.get "style" descriptor = Dict.get "default" chart_styles
    /\ Dict.get "style" descriptor = Some default_style.
Proof.
  split; [reflexivity|]. split; [reflexivity|].
  exact (generate_chart_unknown_theme "PIE" Samples.pie_data "unknown_theme" "" [] tt
           eq_refl eq_refl).
Defined.

End ChartGeneratorFacts.

(** ** Reasoning about methods that return *)

Module PyFacts.

Lemma returns_ret {S A} (a : A) (s : S) (Q : A -> S -> Prop) :
  Q a s -> returns (ret a) s Q.
Proof. intros H. now exists a, s, []. Qed.

Lemma returns_emit {S} (ev : event) (s : S) (Q : unit -> S -> Prop) :
  Q tt s -> returns (emit ev) s Q.
Proof. intros H. now exists tt, s, [ev]. Qed.

Lemma returns_get_state {S} (s : S) (Q : S -> S -> Prop) :
  Q s s -> returns get_state s Q.
Proof. intros H. now exists s, s, []. Qed.

Lemma returns_put_state {S} (s s0 : S) (Q : unit -> S -> Prop) :
  Q tt s -> returns (put_state s) s0 Q.
Proof. intros H. now exists tt, s, []. Qed.

Lemma returns_bind {S A B} (m : Py S A) (f : A -> Py S B) (s : S)
  (Q : B -> S -> Prop) :
  returns m s (fun a s' => returns (f a) s' Q) -> returns (bind m f) s Q.
Proof.
  intros (a & s' & tr & Hm & b & s'' & tr' & Hf & HQ).
  exists b, s'', (tr ++ tr'). unfold bind. now rewrite Hm, Hf.
Qed.

End PyFacts.

(** ** The orchestrator *)

Module PresentationAgentFacts.
Import PresentationAgent.

Lemma update_length {A} (f : A -> A) (l : list A) (n : nat) :
  List.length (PyList.update n f l) = List.length l.
Proof.
  revert n; induction l as [|x l IH]; intros [|n]; simpl; auto.
Qed.

Lemma update_nth {A} (f : A -> A) (l : list A) (n : nat) :
  nth_error (PyList.update n f l) n = option_map f (nth_error l n).
Proof.
  revert n; induction l as [|x l IH]; intros [|n]; simpl; auto.
Qed.

Lemma update_nth_other {A} (f : A -> A) (l : list A) (n m : nat) :
  n <> m -> nth_error (PyList.update n f l) m = nth_error l m.
Proof.
  revert n m; induction l as [|x l IH]; intros [|n] [|m] H; simpl; auto.
  contradiction.
Qed.

Lemma dict_get_set_same (k : string) (v : value) (d : dict) :
  Dict.get k (Dict.set k v d) = Some v.
Proof.
  induction d as [|[k' v'] d IH]; simpl.
  - now rewrite String.eqb_refl.
  - destruct (String.eqb k k') eqn:E; simpl; now rewrite E.
Qed.

Lemma dict_get_set_other (k k' : string) (v : value) (d : dict) :
  k <> k' -> Dict.get k (Dict.set k' v d) = Dict.get k d.
Proof.
  intros Hne. induction d as [|[k0 v0] d IH]; simpl.
  - apply String.eqb_neq in Hne. now rewrite Hne.
  - destruct (String.eqb k' k0) eqn:E; simpl.
    + apply String.eqb_eq in E. subst k0.
      apply String.eqb_neq in Hne. now rewrite Hne.
    + now rewrite IH.
Qed.

Lemma set_slides_same (a : agent) : set_slides (slides a) a = a.
Proof. now destruct a. Qed.

(** C3. Whatever the agent holds, [add_chart] with an index at or beyond
    the number of slides returns normally (no exception), reports the
    error in the log, and leaves the agent, its slide sequence included,
    exactly as it was; the value returned is that unchanged agent. *)
Theorem add_chart_out_of_range (a : agent) (slide_index : Z)
  (chart_type : string) (data : value) :
  slide_index >= PyList.len (slides a) ->
  add_chart slide_index chart_type data a
  = Done a a
      [Log ERROR ("Slide index " ++ PyStr.of_Z slide_index ++ " out of range")].
Proof.
  intros Hge. unfold add_chart, bind, get_state.
  destruct (slide_index >=? PyList.len (slides a)) eqn:E.
  - reflexivity.
  - rewrite Z.geb_leb in E. apply Z.leb_gt in E. lia.
Qed.

Lemma add_chart_out_of_range_witness :
  2 >= PyList.len (slides Samples.two_slides)
  /\ add_chart 2 "pie" VNone Samples.two_slides
     = Done Samples.two_slides Samples.two_slides
         [Log ERROR "Slide index 2 out of range"].
Proof.
  split; [vm_compute; discriminate|].
  apply (add_chart_out_of_range Samples.two_slides 2 "pie" VNone).
  vm_compute; discriminate.
Defined.

Lemma add_chart_in_range (a : agent) (slide_index : Z) (chart_type : string)
  (data : value) (n : nat) :
  slide_index < PyList.len (slides a) ->
  PyList.norm_index (slides a) slide_index = Some n ->
  add_chart slide_index chart_type data a
  = match ChartGenerator.generate_chart chart_type data (theme a) "" [] a with
    | Done chart _ tr =>
        let a' := set_slides (PyList.update n (Dict.set "chart" chart) (slides a)) a in
        Done a' a'
          (tr ++ [Log INFO ("Added " ++ chart_type ++ " chart to slide "
                            ++ PyStr.of_Z slide_index)])
    | Raised e s tr => Raised e s tr
    end.
Proof.
  intros Hlt Hn. unfold add_chart, bind, get_state.
  destruct (slide_index >=? PyList.len (slides a)) eqn:E.
  { rewrite Z.geb_leb in E. apply Z.leb_le in E. lia. }
  simpl.
  unfold ChartGenerator.generate_chart.
  destruct (enum_getitem _ _); cbn; rewrite Hn; reflexivity.
Qed.

Lemma norm_index_negative {A} (l : list A) (i : Z) :
  - PyList.len l <= i < 0 ->
  PyList.norm_index l i = Some (Z.to_nat (PyList.len l + i)).
Proof.
  intros [Hlo Hhi]. unfold PyList.norm_index.
  destruct (i <? 0) eqn:E1; [|apply Z.ltb_ge in E1; lia].
  destruct (0 <=? i + PyList.len l) eqn:E2; [|apply Z.leb_gt in E2; lia].
  now rewrite Z.add_comm.
Qed.

(** C10. The bounds check of [add_chart] rejects only indices at or beyond
    the slide count.  With a known chart type and a negative index between
    [-len(slides)] and [-1], [add_chart] returns normally, reports no
    error, and stores the chart descriptor under ['chart'] in the slide at
    position [len(slides) + slide_index], an existing slide (the last one
    for [-1]); the other slides are untouched. *)
Theorem add_chart_negative_index (a : agent) (slide_index : Z)
  (chart_type : string) (data : value) :
  - PyList.len (slides a) <= slide_index < 0 ->
  ChartGenerator.matches_known chart_type = true ->
  let n := Z.to_nat (PyList.len (slides a) + slide_index) in
  let chart := VDict (ChartGenerator.chart_config chart_type data (theme a) "" []) in
  exists (slide : dict) (a' : agent),
    nth_error (slides a) n = Some slide
    /\ add_chart slide_index chart_type data a
       = Done a' a'
           [ Log INFO ("Generated " ++ chart_type ++ " chart with theme " ++ theme a);
             Log INFO ("Added " ++ chart_type ++ " chart to slide "
                       ++ PyStr.of_Z slide_index) ]
    /\ nth_error (slides a') n = Some (Dict.set "chart" chart slide)
    /\ Dict.get "chart" (Dict.set "chart" chart slide) = Some chart
    /\ List.length (slides a') = List.length (slides a)
    /\ (forall m, m <> n -> nth_error (slides a') m = nth_error (slides a) m)
    /\ (slide_index = -1 -> n = (List.length (slides a) - 1)%nat).
Proof.
  intros Hrange Hknown n chart.
  assert (Hn : (n < List.length (slides a))%nat).
  { unfold n, PyList.len in *. lia. }
  destruct (nth_error (slides a) n) as [slide|] eqn:Hslide;
    [|apply nth_error_None in Hslide; lia].
  exists slide, (set_slides (PyList.update n (Dict.set "chart" chart) (slides a)) a).
  split; [reflexivity|].
  split.
  { rewrite (add_chart_in_range a slide_index chart_type data n).
    - now rewrite ChartGeneratorFacts.generate_chart_known.
    - lia.
    - now apply norm_index_negative. }
  simpl slides.
  split; [now rewrite update_nth, Hslide|].
  split; [apply dict_get_set_same|].
  split; [apply update_length|].
  split; [intros m Hm; now apply update_nth_other|].
  intros ->. unfold n, PyList.len. lia.
Qed.

Lemma add_chart_negative_index_witness :
  (- PyList.len (slides Samples.two_slides) <= -1 < 0)
  /\ ChartGenerator.matches_known "Bar" = true
  /\ exists (slide : dict) (a' : agent),
    nth_error (slides Samples.two_slides) 1 = Some slide
    /\ add_chart (-1) "Bar" VNone Samples.two_slides
       = Done a' a'
           [ Log INFO "Generated Bar chart with theme default";
             Log INFO "Added Bar chart to slide -1" ]
    /\ nth_error (slides a') 1
       = Some (Dict.set "chart"
                 (VDict (ChartGenerator.chart_config "Bar" VNone "default" "" []))
                 slide).
Proof.
  assert (Hrange : - PyList.len (slides Samples.two_slides) <= -1 < 0)
    by (vm_compute; split; [discriminate | reflexivity]).
  split; [exact Hrange|]. split; [reflexivity|].
  destruct (add_chart_negative_index Samples.two_slides (-1) "Bar" VNone
              Hrange eq_refl) as (slide & a' & H1 & H2 & H3 & _).
  exists slide, a'. repeat split; assumption.
Defined.

Lemma add_chart_stores_empty_dict (a : agent) (slide_index : Z) (chart_type : string)
  (data : value) (n : nat) :
  slide_index < PyList.len (slides a) ->
  PyList.norm_index (slides a) slide_index = Some n ->
  ChartGenerator.matches_known chart_type = false ->
  add_chart slide_index chart_type data a
  = (let a' :=
       set_slides (PyList.update n (Dict.set "chart" (VDict [])) (slides a)) a in
     Done a' a')
      [ Log ERROR ("Unsupported chart type: " ++ chart_type);
        Log INFO ("Added " ++ chart_type ++ " chart to slide "
                  ++ PyStr.of_Z slide_index) ].
Proof.
  intros Hlt Hn Hunknown.
  rewrite (add_chart_in_range a slide_index chart_type data n Hlt Hn).
  now rewrite ChartGeneratorFacts.generate_chart_unknown.
Qed.

(** C4, on the code.  The chart type ['donut'] matches none of the seven.
    [generate_chart] reports it and returns the empty dict; [add_chart]
    then stores that empty dict under ['chart'] in the targeted slide and
    logs the chart as added: the slide is changed, and the layout advisor
    now takes it for a chart slide. *)
Theorem add_chart_unknown_type_changes_slide :
  ChartGenerator.matches_known "donut" = false
  /\ ChartGenerator.generate_chart "donut" VNone "default" "" [] Samples.two_slides
     = Done (VDict []) Samples.two_slides [Log ERROR "Unsupported chart type: donut"]
  /\ exists (before after : dict) (a' : agent),
       add_chart 1 "donut" VNone Samples.two_slides
       = Done a' a' [ Log ERROR "Unsupported chart type: donut";
                      Log INFO "Added donut chart to slide 1" ]
       /\ nth_error (slides Samples.two_slides) 1 = Some before
       /\ nth_error (slides a') 1 = Some after
       /\ Dict.get "chart" before = None
       /\ Dict.get "chart" after = Some (VDict [])
       /\ after <> before
       /\ LayoutSuggester.suggest_layout before = "bullet_points"
       /\ LayoutSuggester.suggest_layout after = "chart_slide".
Proof.
  split; [reflexivity|]. split; [reflexivity|].
  eexists _, _, _.
  split; [reflexivity|].
  split; [reflexivity|].
  split; [reflexivity|].
  split; [reflexivity|].
  split; [reflexivity|].
  split; [|split; reflexivity].
  vm_compute. intros H. discriminate H.
Qed.



Lemma returns_modify (f : agent -> agent) (a : agent) (Q : unit -> agent -> Prop) :
  Q tt (f a) -> returns (modify f) a Q.
Proof. intros H. now exists tt, (f a), []. Qed.

Lemma mutate_each_total (body : dict -> exn + dict) (f : dict -> dict)
  (sl : list dict) :
  (forall slide, In slide sl -> body slide = inr (f slide)) ->
  mutate_each body sl = (map f sl, None).
Proof.
  induction sl as [|slide rest IH]; intros Hbody; simpl; [reflexivity|].
  rewrite (Hbody slide (or_introl eq_refl)).
  rewrite IH; [reflexivity|]. intros s' Hin. apply Hbody. now right.
Qed.

Lemma returns_for_slides (body : dict -> exn + dict) (f : dict -> dict)
  (a : agent) (Q : unit -> agent -> Prop) :
  (forall slide, In slide (slides a) -> body slide = inr (f slide)) ->
  Q tt (set_slides (map f (slides a)) a) ->
  returns (for_slides body) a Q.
Proof.
  intros Hbody HQ. unfold for_slides.
  apply PyFacts.returns_bind, PyFacts.returns_get_state.
  rewrite (mutate_each_total body f (slides a) Hbody).
  apply PyFacts.returns_bind, PyFacts.returns_put_state.
  now apply PyFacts.returns_ret.
Qed.

(** The slides that [generate_slides_from_text] builds are the title slide
    and slides parsed from sections. *)
Lemma slides_from_text_In (title : string) (sections : list string) (slide : dict) :
  In slide (SlideGenerator.slides_from_text title sections) ->
  slide = SlideGenerator.title_slide title
  \/ exists section slide_id,
       slide = SlideGenerator._parse_section_to_slide section slide_id.
Proof.
  unfold SlideGenerator.slides_from_text. intros [<-|Hin]; [now left|]. right.
  revert Hin. generalize 1. induction sections as [|section rest IH]; intros i0 Hin.
  - destruct Hin.
  - destruct Hin as [<-|Hin]; [now exists section, i0 | eauto].
Qed.

Lemma notes_of_generated (py_str : value -> string) (title : string)
  (sections : list string) (slide : dict) :
  In slide (map with_layout (SlideGenerator.slides_from_text title sections)) ->
  exists notes, SlideGenerator.generate_speaker_notes py_str slide = inr notes.
Proof.
  intros Hin. apply in_map_iff in Hin as (slide0 & <- & Hin0).
  apply slides_from_text_In in Hin0 as [-> | (section & slide_id & ->)];
    eexists; reflexivity.
Qed.

Lemma with_layout_in_catalog (slide : dict) :
  LayoutSuggester.layout_in_catalog (with_layout slide).
Proof.
  exists (LayoutSuggester.suggest_layout slide). unfold with_layout.
  split; [apply dict_get_set_same|].
  apply LayoutSuggesterFacts.suggest_layout_in_catalog.
Qed.

Lemma with_notes_in_catalog (py_str : value -> string) (slide : dict) :
  LayoutSuggester.layout_in_catalog slide ->
  LayoutSuggester.layout_in_catalog (with_notes py_str slide).
Proof.
  intros (name & Hget & Hin). exists name. split; [|exact Hin].
  unfold with_notes.
  destruct (SlideGenerator.generate_speaker_notes py_str slide); [exact Hget|].
  rewrite dict_get_set_other; [exact Hget | discriminate].
Qed.

(** C8. Every name that [suggest_layout] returns is one of the six names
    of the layout catalog, which are exactly the keys of [layouts]; and
    [create_from_text] always returns the agent, leaving N+1 slides whose
    ['layout'] each names an entry of the catalog. *)
Theorem create_from_text_layouts (py_str : value -> string) (title : string)
  (sections : list string) (data_source : option string) (speaker_notes : bool)
  (a : agent) :
  (forall slide : dict,
      In (LayoutSuggester.suggest_layout slide) LayoutSuggester.catalog_names
      /\ LayoutSuggester.get_layout_details (LayoutSuggester.suggest_layout slide)
         <> None)
  /\ LayoutSuggester.get_available_layouts = LayoutSuggester.catalog_names
  /\ returns (create_from_text py_str title sections data_source speaker_notes) a
       (fun self a' =>
          self = a'
          /\ List.length (slides a') = Datatypes.S (List.length sections)
          /\ Forall LayoutSuggester.layout_in_catalog (slides a')).
Proof.
  split.
  { intros slide.
    destruct (LayoutSuggesterFacts.suggest_layout_in_catalog slide) as [Hin Hc].
    split; [exact Hin|].
    unfold LayoutSuggester.get_layout_details, Dict.contains in *.
    destruct (Dict.get _ LayoutSuggester.layouts); [discriminate | discriminate]. }
  split; [reflexivity|].
  unfold create_from_text.
  apply PyFacts.returns_bind, PyFacts.returns_emit.
  apply PyFacts.returns_bind, returns_modify.
  apply PyFacts.returns_bind.
  unfold SlideGenerator.generate_slides_from_text.
  apply PyFacts.returns_bind, PyFacts.returns_emit.
  apply PyFacts.returns_ret.
  apply PyFacts.returns_bind, returns_modify.
  apply PyFacts.returns_bind.
  assert (Hrest :
    forall a0 : agent,
      slides a0 = SlideGenerator.slides_from_text title sections ->
      returns
        (for_slides (fun slide =>
           inr (Dict.set "layout"
                  (VStr (LayoutSuggester.suggest_layout slide)) slide)) ;;;
         (if speaker_notes then _generate_speaker_notes py_str else ret tt) ;;;
         a1 <- get_state ;;
         logger_info ("Created " ++ PyStr.of_Z (PyList.len (slides a1)) ++ " slides") ;;;
         return_self)
        a0
        (fun self a' =>
           self = a'
           /\ List.length (slides a') = Datatypes.S (List.length sections)
           /\ Forall LayoutSuggester.layout_in_catalog (slides a'))).
  { intros a0 Hslides.
    apply PyFacts.returns_bind.
    apply (returns_for_slides _ with_layout); [reflexivity|].
    rewrite Hslides. cbn [slides set_slides set_metadata].
    apply PyFacts.returns_bind.
    assert (Hlen : List.length
                     (map with_layout (SlideGenerator.slides_from_text title sections))
                   = Datatypes.S (List.length sections)).
    { rewrite length_map. simpl.
      now rewrite SlideGeneratorFacts.content_slides_length. }
    assert (Hcat : Forall LayoutSuggester.layout_in_catalog
                     (map with_layout
                        (SlideGenerator.slides_from_text title sections))).
    { apply Forall_map, Forall_forall. intros slide _.
      apply with_layout_in_catalog. }
    destruct speaker_notes.
    - unfold _generate_speaker_notes.
      apply PyFacts.returns_bind.
      apply (returns_for_slides _ (with_notes py_str)).
      + cbn [slides set_slides set_metadata]. intros slide Hin. unfold with_notes.
        destruct (notes_of_generated py_str title sections slide Hin) as [notes ->].
        reflexivity.
      + cbn [slides set_slides set_metadata]. apply PyFacts.returns_emit.
        apply PyFacts.returns_bind, PyFacts.returns_get_state.
        apply PyFacts.returns_bind, PyFacts.returns_emit.
        apply PyFacts.returns_get_state.
        cbn [slides set_slides set_metadata]. split; [reflexivity|]. split.
        * now rewrite length_map.
        * apply Forall_map. revert Hcat. apply Forall_impl.
          intros slide. apply with_notes_in_catalog.
    - apply PyFacts.returns_ret.
      apply PyFacts.returns_bind, PyFacts.returns_get_state.
      apply PyFacts.returns_bind, PyFacts.returns_emit.
      apply PyFacts.returns_get_state.
      cbn [slides set_slides set_metadata]. now repeat split. }
  destruct data_source as [source|].
  - destruct (String.eqb source "").
    + apply PyFacts.returns_ret. now apply Hrest.
    + apply PyFacts.returns_bind, PyFacts.returns_emit.
      apply PyFacts.returns_emit. now apply Hrest.
  - apply PyFacts.returns_ret. now apply Hrest.
Qed.

End PresentationAgentFacts.

(** ** More on stripping: trimmed text and line breaks *)

Module TrimFacts.
Import PyStr.

Lemma lstrip_idem (s : string) : lstrip (lstrip s) = lstrip s.
Proof.
  induction s as [|c s IH]; [reflexivity|].
  simpl. destruct (isspace c) eqn:Hsp; [exact IH|].
  simpl. now rewrite Hsp.
Qed.

Lemma rstrip_idem (s : string) : rstrip (rstrip s) = rstrip s.
Proof.
  induction s as [|c s IH]; [reflexivity|].
  simpl. destruct (rstrip s) as [|c' r] eqn:Hr.
  - destruct (isspace c) eqn:Hsp; [reflexivity|]. simpl. now rewrite Hsp.
  - change (rstrip (String c (String c' r))) with
      (match rstrip (String c' r) with
       | EmptyString => if isspace c then EmptyString else String c EmptyString
       | r0 => String c r0
       end).
    now rewrite IH.
Qed.

Lemma strip_idem (s : string) : strip (strip s) = strip s.
Proof.
  unfold strip.
  rewrite (PyStrFacts.lstrip_rstrip (lstrip s)).
  now rewrite lstrip_idem, rstrip_idem.
Qed.

Lemma lstrip_no_newline (s : string) :
  has_newline s = false -> has_newline (lstrip s) = false.
Proof.
  induction s as [|c s IH]; [reflexivity|].
  simpl. intros H. apply orb_false_iff in H as [Hc Hs].
  destruct (isspace c); [auto|]. simpl. now rewrite Hc, Hs.
Qed.

Lemma rstrip_no_newline (s : string) :
  has_newline s = false -> has_newline (rstrip s) = false.
Proof.
  induction s as [|c s IH]; [reflexivity|].
  simpl. intros H. apply orb_false_iff in H as [Hc Hs].
  specialize (IH Hs).
  destruct (rstrip s) as [|c' r].
  - destruct (isspace c); [reflexivity|]. simpl. now rewrite Hc.
  - simpl in IH |- *. now rewrite Hc, IH.
Qed.

Lemma strip_no_newline (s : string) :
  has_newline s = false -> has_newline (strip s) = false.
Proof.
  intros H. unfold strip. now apply rstrip_no_newline, lstrip_no_newline.
Qed.

(** No line that [split] gives holds the separator. *)
Lemma split_no_newline (s : string) :
  Forall (fun line => has_newline line = false) (split LF s).
Proof.
  induction s as [|c s IH]; simpl.
  - repeat constructor.
  - destruct (Ascii.eqb c LF) eqn:Hc.
    + constructor; [reflexivity | exact IH].
    + destruct (split LF s) as [|l ls]; [repeat constructor; simpl; now rewrite Hc|].
      inversion IH as [|? ? Hl Hls]; subst.
      constructor; [simpl; now rewrite Hc, Hl | exact Hls].
Qed.

Lemma lstrip_head (s : string) (c : ascii) (r : string) :
  lstrip s = String c r -> isspace c = false.
Proof.
  induction s as [|c0 s IH]; [discriminate|].
  simpl. destruct (isspace c0) eqn:Hsp; [exact IH|].
  intros H. injection H as -> _. exact Hsp.
Qed.

Lemma rstrip_keeps_head (c : ascii) (s : string) :
  isspace c = false -> exists r, rstrip (String c s) = String c r.
Proof.
  intros Hc. simpl. destruct (rstrip s) as [|c' r].
  - rewrite Hc. now exists EmptyString.
  - now exists (String c' r).
Qed.

Lemma strip_head (s : string) (c : ascii) (r : string) :
  strip s = String c r -> isspace c = false.
Proof.
  unfold strip. rewrite <- PyStrFacts.lstrip_rstrip. apply lstrip_head.
Qed.

(** The first line of a text that starts with a character that is no
    space starts with that character. *)
Lemma split_head (c : ascii) (s : string) :
  isspace c = false ->
  exists l ls, split LF (String c s) = String c l :: ls.
Proof.
  intros Hc. simpl. destruct (Ascii.eqb c LF) eqn:Hlf.
  - apply PyStrFacts.eqb_LF_isspace in Hlf. congruence.
  - destruct (PyStrFacts.split_cons LF s) as (l & ls & ->). now exists l, ls.
Qed.

End TrimFacts.

(** ** The deck model builder: titles, bullets, notes, statistics *)

Module DeckBuilderFacts.
Import SlideGenerator.

Lemma collect_bullets_filter (lines : list string) :
  collect_bullets lines = filter keeps (map PyStr.strip lines).
Proof.
  induction lines as [|line rest IH]; [reflexivity|].
  simpl. unfold keeps at 1. rewrite IH.
  destruct (negb (String.eqb (PyStr.strip line) "")
            && negb (PyStr.startswith (PyStr.strip line) "#")); reflexivity.
Qed.

Lemma section_lines_no_newline (section : string) :
  Forall (fun line => PyStr.has_newline line = false) (section_lines section).
Proof. apply TrimFacts.split_no_newline. Qed.

Lemma section_title_blank (section : string) :
  section_title section = EmptyString <-> PyStr.strip section = EmptyString.
Proof.
  unfold section_title, section_lines. split.
  - intros Ht. destruct (PyStr.strip section) as [|c r] eqn:Hs; [reflexivity|].
    pose proof (TrimFacts.strip_head _ _ _ Hs) as Hc.
    destruct (TrimFacts.split_head c r Hc) as (l & ls & Hsplit).
    rewrite Hsplit in Ht. simpl hd in Ht.
    unfold PyStr.strip in Ht. simpl PyStr.lstrip in Ht. rewrite Hc in Ht.
    destruct (TrimFacts.rstrip_keeps_head c l Hc) as [r' Hr'].
    rewrite Hr' in Ht. discriminate.
  - intros ->. reflexivity.
Qed.

(** X1. The title of the slide parsed from a section is one trimmed line:
    it holds no line break, trimming it again changes nothing, and the
    content's heading is the same text.  It is empty exactly when the
    section is blank. *)
Theorem parsed_title_is_trimmed_line (section : string) (slide_id : Z) :
  let slide := _parse_section_to_slide section slide_id in
  let title := section_title section in
  Dict.get "title" slide = Some (VStr title)
  /\ (exists rest, Dict.get "content" slide
                   = Some (VDict (("heading", VStr title) :: rest)))
  /\ PyStr.has_newline title = false
  /\ PyStr.strip title = title
  /\ (title = EmptyString <-> PyStr.strip section = EmptyString).
Proof.
  intros slide title. split; [reflexivity|].
  split; [eexists; reflexivity|].
  split.
  { unfold title, section_title. apply TrimFacts.strip_no_newline.
    pose proof (section_lines_no_newline section) as H.
    destruct (section_lines section); [reflexivity|].
    now inversion H. }
  split; [apply TrimFacts.strip_idem|].
  apply section_title_blank.
Qed.

Lemma collected_bullets_clean (lines : list string) :
  Forall (fun line => PyStr.has_newline line = false) lines ->
  Forall clean_bullet (collect_bullets lines).
Proof.
  induction 1 as [|line rest Hline _ IH]; simpl; [constructor|].
  destruct (String.eqb (PyStr.strip line) "") eqn:He; simpl; [exact IH|].
  destruct (PyStr.startswith (PyStr.strip line) "#") eqn:Hh; simpl; [exact IH|].
  constructor; [|exact IH].
  repeat split.
  - now apply String.eqb_neq.
  - exact Hh.
  - apply TrimFacts.strip_idem.
  - now apply TrimFacts.strip_no_newline.
Qed.

(** X2. The bullets of a parsed slide are either the fallback, the section
    itself, or the lines of the trimmed section after the first, each
    trimmed, in their order, without the empty ones and the headings; in
    that case every bullet is non-empty, trimmed, free of line breaks and
    does not start with ['#']. *)
Theorem parsed_bullets_are_filtered_lines (section : string) :
  let body := map PyStr.strip (tl (section_lines section)) in
  (filter keeps body = [] /\ section_bullets section = [section])
  \/ (filter keeps body <> []
      /\ section_bullets section = filter keeps body
      /\ Forall clean_bullet (section_bullets section)).
Proof.
  intros body. unfold section_bullets, body.
  rewrite <- collect_bullets_filter.
  assert (Hclean : Forall clean_bullet (collect_bullets (tl (section_lines section)))).
  { apply collected_bullets_clean.
    pose proof (section_lines_no_newline section) as H.
    destruct (section_lines section); [constructor | now inversion H]. }
  destruct (collect_bullets (tl (section_lines section))) as [|b bs].
  - left. now split.
  - right. split; [discriminate|]. now split.
Qed.

End DeckBuilderFacts.

(** ** Notes and statistics *)

Module NotesFacts.
Import SlideGenerator.

Lemma dict_contains_set_other (k k' : string) (v : value) (d : dict) :
  k <> k' -> Dict.contains k (Dict.set k' v d) = Dict.contains k d.
Proof.
  intros H. unfold Dict.contains.
  now rewrite PresentationAgentFacts.dict_get_set_other.
Qed.

Lemma dict_set_set (k : string) (v v' : value) (d : dict) :
  Dict.set k v (Dict.set k v' d) = Dict.set k v d.
Proof.
  induction d as [|[k0 v0] d IH]; simpl.
  - now rewrite String.eqb_refl.
  - destruct (String.eqb k k0) eqn:E; simpl; rewrite E; [reflexivity|].
    now rewrite IH.
Qed.

(** The notes of a slide read its title, its content and its chart only. *)
Lemma notes_frame (py_str : value -> string) (k : string) (v : value) (slide : dict) :
  k <> "title" -> k <> "content" -> k <> "chart" ->
  generate_speaker_notes py_str (Dict.set k v slide)
  = generate_speaker_notes py_str slide.
Proof.
  intros Ht Hc Hch. unfold generate_speaker_notes, Dict.get_default.
  rewrite !PresentationAgentFacts.dict_get_set_other by congruence.
  rewrite dict_contains_set_other by congruence.
  reflexivity.
Qed.

Lemma with_notes_returned (py_str : value -> string) (slide : dict) (notes : string) :
  generate_speaker_notes py_str slide = inr notes ->
  PresentationAgent.with_notes py_str slide
  = Dict.set "speaker_notes" (VStr notes) slide.
Proof. intros H. unfold PresentationAgent.with_notes. now rewrite H. Qed.

(** X3. Running [add_speaker_notes_to_slides] on its own result changes
    nothing: the notes do not depend on the notes already stored. *)
Theorem add_speaker_notes_idempotent (py_str : value -> string)
  (slides slides' : list dict) :
  add_speaker_notes_to_slides py_str slides = (slides', None) ->
  add_speaker_notes_to_slides py_str slides' = (slides', None).
Proof.
  revert slides'. induction slides as [|slide rest IH]; intros slides' H; simpl in H.
  - injection H as <-. reflexivity.
  - destruct (generate_speaker_notes py_str slide) as [e|notes] eqn:Hn;
      [discriminate|].
    destruct (add_speaker_notes_to_slides py_str rest) as [rest' e] eqn:Hrest.
    injection H as <- ->. simpl.
    rewrite notes_frame by discriminate. rewrite Hn.
    rewrite (IH rest' eq_refl). now rewrite dict_set_set.
Qed.

Lemma add_speaker_notes_idempotent_witness :
  add_speaker_notes_to_slides Samples.no_str Samples.revenue_slides
  = (Samples.revenue_slides_with_notes, None)
  /\ add_speaker_notes_to_slides Samples.no_str Samples.revenue_slides_with_notes
     = (Samples.revenue_slides_with_notes, None).
Proof.
  split; [reflexivity|].
  exact (add_speaker_notes_idempotent Samples.no_str Samples.revenue_slides
           Samples.revenue_slides_with_notes eq_refl).
Defined.

(** X4. [generate_speaker_notes] raises exactly when the content is a dict
    whose ['bullet_points'] cannot be iterated ([None], a bool or an
    int), and then it raises [TypeError]; in every other case it returns
    the notes. *)
Theorem speaker_notes_raise_iff (py_str : value -> string) (slide : dict) :
  (generate_speaker_notes py_str slide = inl TypeError
   <-> exists content bp,
         Dict.get "content" slide = Some (VDict content)
         /\ Dict.get "bullet_points" content = Some bp
         /\ not_iterable bp)
  /\ (generate_speaker_notes py_str slide <> inl TypeError ->
      exists notes, generate_speaker_notes py_str slide = inr notes).
Proof.
  unfold generate_speaker_notes, Dict.get_default, not_iterable.
  destruct (Dict.get "content" slide) as [[| | | | | |content]|] eqn:Hc;
    try (split; [split; [discriminate | intros (c & bp & H & _); discriminate]
                | intros _; eexists; reflexivity]).
  - destruct (Dict.get "bullet_points" content) as [bp|] eqn:Hbp.
    + destruct bp; simpl;
        try (split; [split; [discriminate
                            | intros (c & bp' & Hc' & Hbp' & Hn);
                              injection Hc' as <-; rewrite Hbp in Hbp';
                              injection Hbp' as <-;
                              destruct Hn as [Hn|[[b Hn]|[z Hn]]]; discriminate]
                    | intros _; eexists; reflexivity]).
      * split; [split; [intros _|reflexivity]|congruence].
        exists content, VNone. auto.
      * split; [split; [intros _|reflexivity]|congruence].
        exists content, (VBool b). eauto 6.
      * split; [split; [intros _|reflexivity]|congruence].
        exists content, (VInt z). eauto 6.
    + split; [split; [discriminate|]|intros _; eexists; reflexivity].
      intros (c & bp' & Hc' & Hbp' & _). injection Hc' as <-. congruence.
Qed.

(** X5. When [add_speaker_notes_to_slides] meets a slide whose notes raise,
    the slides before it keep the notes they were given, that slide and
    the ones after it are left as they were, and the exception goes to
    the caller. *)
Theorem add_speaker_notes_stops_at_failure (py_str : value -> string)
  (done : list dict) (bad : dict) (rest : list dict) (e : exn) :
  Forall (fun slide => exists notes, generate_speaker_notes py_str slide = inr notes)
         done ->
  generate_speaker_notes py_str bad = inl e ->
  add_speaker_notes_to_slides py_str (done ++ bad :: rest)
  = (map (PresentationAgent.with_notes py_str) done ++ bad :: rest, Some e).
Proof.
  intros Hdone Hbad. induction Hdone as [|slide done' [notes Hn] _ IH]; simpl.
  - now rewrite Hbad.
  - rewrite Hn, IH. now rewrite (with_notes_returned py_str slide notes Hn).
Qed.

Lemma add_speaker_notes_stops_at_failure_witness :
  Forall (fun slide =>
            exists notes, generate_speaker_notes Samples.no_str slide = inr notes)
         Samples.revenue_slides
  /\ generate_speaker_notes Samples.no_str Samples.broken_slide = inl TypeError
  /\ add_speaker_notes_to_slides Samples.no_str
       (Samples.revenue_slides ++ Samples.broken_slide :: Samples.revenue_slides)
     = (Samples.revenue_slides_with_notes
          ++ Samples.broken_slide :: Samples.revenue_slides,
        Some TypeError).
Proof.
  assert (Hdone : Forall (fun slide =>
                    exists notes,
                      generate_speaker_notes Samples.no_str slide = inr notes)
                    Samples.revenue_slides).
  { repeat constructor; eexists; reflexivity. }
  split; [exact Hdone|]. split; [reflexivity|].
  exact (add_speaker_notes_stops_at_failure Samples.no_str Samples.revenue_slides
           Samples.broken_slide Samples.revenue_slides TypeError Hdone eq_refl).
Defined.

Lemma speaker_notes_raise_iff_witness :
  (exists content bp,
      Dict.get "content" Samples.broken_slide = Some (VDict content)
      /\ Dict.get "bullet_points" content = Some bp
      /\ not_iterable bp)
  /\ generate_speaker_notes Samples.no_str Samples.broken_slide = inl TypeError.
Proof.
  assert (H : exists content bp,
             Dict.get "content" Samples.broken_slide = Some (VDict content)
             /\ Dict.get "bullet_points" content = Some bp
             /\ not_iterable bp).
  { exists [("bullet_points", VNone)], VNone.
    split; [reflexivity|]. split; [reflexivity|]. now left. }
  split; [exact H|].
  exact (proj2 (proj1 (speaker_notes_raise_iff Samples.no_str Samples.broken_slide)) H).
Defined.

End NotesFacts.

Module StatisticsFacts.
Import SlideGenerator.

Lemma key_eqb_eq : forall a b : key, key_eqb a b = true -> a = b.
Proof.
  fix IH 1.
  intros [|x|x|xs] [|y|y|ys]; simpl; intros H; try discriminate.
  - reflexivity.
  - apply Z.eqb_eq in H. now subst.
  - apply String.eqb_eq in H. now subst.
  - f_equal. revert ys H.
    induction xs as [|k xs IHxs]; intros [|k' ys] H; try discriminate.
    + reflexivity.
    + apply andb_true_iff in H as [H1 H2].
      f_equal; [apply IH; exact H1 | apply IHxs; exact H2].
Qed.

Lemma key_eqb_refl : forall a : key, key_eqb a a = true.
Proof.
  fix IH 1.
  intros [|x|x|xs]; simpl.
  - reflexivity.
  - apply Z.eqb_refl.
  - apply String.eqb_refl.
  - induction xs as [|k xs IHxs]; [reflexivity|].
    apply andb_true_iff. split; [apply IH | exact IHxs].
Qed.

Lemma key_eqb_sym (a b : key) : key_eqb a b = key_eqb b a.
Proof.
  destruct (key_eqb a b) eqn:E.
  - apply key_eqb_eq in E. subst. symmetry. apply key_eqb_refl.
  - destruct (key_eqb b a) eqn:E'; [|reflexivity].
    apply key_eqb_eq in E'. subst. now rewrite key_eqb_refl in E.
Qed.

Lemma sum_count_up (k : key) (v : value) (counts : list (key * value * Z)) :
  sum_counts (count_up k v counts) = sum_counts counts + 1.
Proof.
  unfold sum_counts.
  induction counts as [|[[k' v'] n] rest IH]; simpl; [reflexivity|].
  destruct (key_eqb k k'); simpl; lia.
Qed.

Lemma count_of_count_up (q k : key) (v : value) (counts : list (key * value * Z)) :
  count_of q (count_up k v counts)
  = count_of q counts + (if key_eqb q k then 1 else 0).
Proof.
  induction counts as [|[[k' v'] n] rest IH]; simpl.
  - destruct (key_eqb q k); lia.
  - destruct (key_eqb k k') eqn:Ek; simpl.
    + apply key_eqb_eq in Ek. subst k'.
      destruct (key_eqb q k); lia.
    + destruct (key_eqb q k') eqn:Eq; [|exact IH].
      apply key_eqb_eq in Eq. subst k'.
      rewrite key_eqb_sym, Ek. lia.
Qed.

Lemma slides_of_type_cons (k : key) (slide : dict) (rest : list dict) (k0 : key) :
  type_key slide = Some k0 ->
  slides_of_type k (slide :: rest)
  = (if key_eqb k k0 then 1 else 0) + slides_of_type k rest.
Proof.
  intros H. cbn [slides_of_type]. rewrite H. destruct (key_eqb k k0); lia.
Qed.

Lemma tally_counts (py_str : value -> string) (slides : list dict) :
  forall (counts counts' : list (key * value * Z)) (total total' : Z),
    tally py_str slides counts total = inr (counts', total') ->
    sum_counts counts' = sum_counts counts + PyList.len slides
    /\ (forall k, count_of k counts' = count_of k counts + slides_of_type k slides).
Proof.
  induction slides as [|slide rest IH]; intros counts counts' total total' H;
    simpl in H.
  - injection H as <- <-. split; [unfold PyList.len; simpl; lia|].
    intros k. simpl. lia.
  - change (to_key (Dict.get_default "type" (VStr "unknown") slide))
      with (type_key slide) in H.
    destruct (type_key slide) as [k0|] eqn:Ek; [|discriminate].
    apply IH in H as [Hsum Hcount]. split.
    + rewrite Hsum, sum_count_up. unfold PyList.len. simpl List.length. lia.
    + intros k. rewrite Hcount, count_of_count_up.
      rewrite (slides_of_type_cons k slide rest k0 Ek). lia.
Qed.

Lemma statistics_returned (py_str : value -> string) (slides : list dict)
  (st : statistics) :
  get_slide_statistics py_str slides = inr st ->
  exists total, tally py_str slides [] 0 = inr (slide_types st, total)
                /\ total_slides st = PyList.len slides.
Proof.
  unfold get_slide_statistics.
  destruct (tally py_str slides [] 0) as [e|[counts total]]; [discriminate|].
  intros H. injection H as <-. now exists total.
Qed.

(** X6. The tallies of [slide_types] add up to [total_slides], the number
    of slides. *)
Theorem statistics_tallies_add_up (py_str : value -> string) (slides : list dict)
  (st : statistics) :
  get_slide_statistics py_str slides = inr st ->
  sum_counts (slide_types st) = total_slides st
  /\ total_slides st = PyList.len slides.
Proof.
  intros H. apply statistics_returned in H as (total & Ht & Hlen).
  apply tally_counts in Ht as [Hsum _].
  split; [|exact Hlen]. rewrite Hsum, Hlen. unfold sum_counts. simpl. lia.
Qed.

Lemma statistics_tallies_add_up_witness :
  exists st : statistics,
    get_slide_statistics Samples.no_str Samples.text_slides = inr st
    /\ sum_counts (slide_types st) = total_slides st
    /\ total_slides st = 2.
Proof.
  eexists. split; [reflexivity|].
  exact (statistics_tallies_add_up Samples.no_str Samples.text_slides _ eq_refl).
Defined.

(** X7. For every key, the tally that [slide_types] holds for it is the
    number of slides of that type, a slide without ['type'] being of type
    ['unknown']; a key that no slide has is not tallied. *)
Theorem statistics_tally_per_type (py_str : value -> string) (slides : list dict)
  (st : statistics) (k : key) :
  get_slide_statistics py_str slides = inr st ->
  count_of k (slide_types st) = slides_of_type k slides.
Proof.
  intros H. apply statistics_returned in H as (total & Ht & _).
  apply tally_counts in Ht as [_ Hcount].
  rewrite Hcount. simpl. lia.
Qed.

Lemma statistics_tally_per_type_witness :
  exists st : statistics,
    get_slide_statistics Samples.no_str
      (Samples.text_slides ++ [[("content", VStr "no type")]]) = inr st
    /\ count_of (KStr "unknown") (slide_types st) = 1
    /\ count_of (KStr "chart") (slide_types st) = 0.
Proof.
  eexists. split; [reflexivity|]. split.
  - exact (statistics_tally_per_type Samples.no_str
             (Samples.text_slides ++ [[("content", VStr "no type")]]) _
             (KStr "unknown") eq_refl).
  - reflexivity.
Defined.

Lemma tally_raises (py_str : value -> string) (slides : list dict) :
  forall (counts : list (key * value * Z)) (total : Z),
    (exists e, tally py_str slides counts total = inl e)
    <-> Exists (fun slide => type_key slide = None) slides.
Proof.
  induction slides as [|slide rest IH]; intros counts total; simpl.
  - split; [intros [e H]; discriminate | intros H; inversion H].
  - destruct (to_key (Dict.get_default "type" (VStr "unknown") slide)) as [k|] eqn:Ek.
    + rewrite IH. split.
      * intros H. now apply Exists_cons_tl.
      * intros H. inversion H as [? ? Hk|]; subst; [|assumption].
        unfold type_key in Hk. congruence.
    + split; [intros _|intros _; now exists TypeError].
      now apply Exists_cons_hd.
Qed.

(** X8. [get_slide_statistics] raises exactly when some slide has a type
    that cannot be a dictionary key (a list, a dict, or a tuple that holds
    one), and what it raises is [TypeError]. *)
Theorem statistics_raise_iff (py_str : value -> string) (slides : list dict) :
  (get_slide_statistics py_str slides = inl TypeError
   <-> Exists (fun slide => type_key slide = None) slides)
  /\ (forall e, get_slide_statistics py_str slides = inl e -> e = TypeError).
Proof.
  assert (Hexn : forall e, get_slide_statistics py_str slides = inl e -> e = TypeError).
  { unfold get_slide_statistics. intros e.
    destruct (tally py_str slides [] 0) as [e'|[counts total]] eqn:Ht;
      [|discriminate].
    intros H. injection H as <-.
    clear -Ht. revert Ht. generalize (@nil (key * value * Z)), 0.
    induction slides as [|slide rest IH]; intros counts total; simpl;
      [discriminate|].
    destruct (to_key _); [apply IH | congruence]. }
  split; [|exact Hexn].
  rewrite <- (tally_raises py_str slides [] 0).
  unfold get_slide_statistics. split.
  - intros H. destruct (tally py_str slides [] 0) as [e|[counts total]];
      [now exists e | discriminate].
  - intros [e He]. pose proof (Hexn e) as Hx.
    unfold get_slide_statistics in Hx. rewrite He in *.
    now rewrite (Hx eq_refl).
Qed.

Lemma statistics_raise_iff_witness :
  Exists (fun slide => type_key slide = None)
         (Samples.text_slides ++ [Samples.list_typed_slide])
  /\ get_slide_statistics Samples.no_str
       (Samples.text_slides ++ [Samples.list_typed_slide]) = inl TypeError.
Proof.
  assert (H : Exists (fun slide => type_key slide = None)
                     (Samples.text_slides ++ [Samples.list_typed_slide])).
  { apply Exists_cons_tl, Exists_cons_tl, Exists_cons_hd. reflexivity. }
  split; [exact H|].
  exact (proj2 (proj1 (statistics_raise_iff Samples.no_str
                         (Samples.text_slides ++ [Samples.list_typed_slide]))) H).
Defined.

End StatisticsFacts.

(** ** The layout advisor: what it reads, the catalog checks, themes *)

Module AdvisorFacts.
Import LayoutSuggester.

(** X9. The suggestion reads the type, the chart and the content of a
    slide and nothing else: assigning any other field, the layout or the
    notes for instance, leaves the suggested layout as it was. *)
Theorem suggest_layout_reads_three_fields (k : string) (v : value) (slide : dict) :
  k <> "type" -> k <> "chart" -> k <> "content" ->
  suggest_layout (Dict.set k v slide) = suggest_layout slide.
Proof.
  intros Ht Hch Hc. unfold suggest_layout, Dict.get_default.
  rewrite !PresentationAgentFacts.dict_get_set_other by congruence.
  rewrite NotesFacts.dict_contains_set_other by congruence.
  reflexivity.
Qed.

Lemma suggest_layout_reads_three_fields_witness :
  suggest_layout (Dict.set "layout" (VStr "blank") Samples.columns_slide)
  = suggest_layout Samples.columns_slide.
Proof.
  apply (suggest_layout_reads_three_fields "layout" (VStr "blank")
           Samples.columns_slide); discriminate.
Defined.

Lemma existsb_keys (k : string) (d : dict) :
  existsb (String.eqb k) (Dict.keys d) = Dict.contains k d.
Proof.
  unfold Dict.contains, Dict.keys.
  induction d as [|[k' v'] d IH]; simpl; [reflexivity|].
  destruct (String.eqb k k'); [reflexivity | exact IH].
Qed.

Lemma missing_elements_dict (content : dict) (required : list string) :
  missing_elements (VDict content) required
  = inr (map (fun element => ("Add " ++ element ++ " to content")%string)
           (filter (fun element => negb (Dict.contains element content)) required)).
Proof.
  induction required as [|element rest IH]; [reflexivity|].
  simpl. rewrite IH. destruct (Dict.contains element content); reflexivity.
Qed.

Lemma forallb_keys (content : dict) (required : list string) :
  forallb (fun elem => existsb (String.eqb elem) (Dict.keys content)) required
  = forallb (fun elem => Dict.contains elem content) required.
Proof.
  induction required as [|elem rest IH]; simpl; [reflexivity|].
  now rewrite existsb_keys, IH.
Qed.

Lemma forallb_filter_nil {A} (f : A -> bool) (l : list A) :
  forallb f l = true <-> filter (fun x => negb (f x)) l = [].
Proof.
  induction l as [|x l IH]; simpl; [tauto|].
  destruct (f x); simpl; [exact IH|]. split; discriminate.
Qed.



(** X11. The content that the generator builds does not fit the layout that
    the advisor suggests for it.  A content slide is given
    ['bullet_points'], whose element ['title'] is no key of the content
    (the heading is stored under ['heading']); the title slide is given
    ['title_slide'] and lacks both ['title'] and ['subtitle'].  The
    recommendations say so. *)
Theorem generated_content_does_not_fit (title section : string) (slide_id : Z) :
  let slide := SlideGenerator._parse_section_to_slide section slide_id in
  let first := SlideGenerator.title_slide title in
  (exists content,
      Dict.get "content" slide = Some (VDict content)
      /\ suggest_layout slide = "bullet_points"
      /\ validate_content_for_layout content (suggest_layout slide) = false
      /\ recommend_modifications slide (suggest_layout slide)
         = inr ["Add title to content"])
  /\ (exists content,
        Dict.get "content" first = Some (VDict content)
        /\ suggest_layout first = "title_slide"
        /\ validate_content_for_layout content (suggest_layout first) = false
        /\ recommend_modifications first (suggest_layout first)
           = inr ["Add title to content"; "Add subtitle to content"]).
Proof.
  split; eexists; repeat split; reflexivity.
Qed.

Lemma dict_get_none_keys (k : string) (d : dict) :
  Dict.get k d = None <-> ~ In k (Dict.keys d).
Proof.
  unfold Dict.keys. induction d as [|[k' v'] d IH]; simpl; [tauto|].
  destruct (String.eqb k k') eqn:E.
  - apply String.eqb_eq in E. subst. split; [discriminate | tauto].
  - apply String.eqb_neq in E. rewrite IH. split; [|tauto].
    intros H [H'|H']; [congruence | tauto].
Qed.

(** X12. A name outside [get_available_layouts] has no details, fits no
    content and brings no recommendation; the layout ['blank'] fits every
    content. *)
Theorem unknown_layout_fits_nothing (layout_name : string) (content slide : dict) :
  ~ In layout_name get_available_layouts ->
  get_layout_details layout_name = None
  /\ validate_content_for_layout content layout_name = false
  /\ recommend_modifications slide layout_name = inr []
  /\ validate_content_for_layout content "blank" = true.
Proof.
  intros Hout. apply dict_get_none_keys in Hout.
  unfold get_layout_details, validate_content_for_layout, recommend_modifications.
  rewrite Hout. repeat split.
Qed.

Lemma unknown_layout_fits_nothing_witness :
  ~ In "three_column" get_available_layouts
  /\ get_layout_details "three_column" = None
  /\ validate_content_for_layout Samples.columns_content "three_column" = false
  /\ recommend_modifications Samples.columns_slide "three_column" = inr [].
Proof.
  assert (H : ~ In "three_column" get_available_layouts).
  { simpl. intros [H|[H|[H|[H|[H|[H|[]]]]]]]; discriminate. }
  split; [exact H|].
  destruct (unknown_layout_fits_nothing "three_column" Samples.columns_content
              Samples.columns_slide H) as (H1 & H2 & H3 & _).
  repeat split; assumption.
Defined.

(** X13. Whatever the content type, [get_layout_by_content_type] answers
    with a name of the catalog, for which [get_layout_details] finds the
    entry; ['bullet_points'] is the answer for every type outside the
    five of the mapping. *)
Theorem layout_by_content_type_in_catalog (content_type : string) :
  In (get_layout_by_content_type content_type) get_available_layouts
  /\ get_layout_details (get_layout_by_content_type content_type) <> None
  /\ (~ In content_type ["text"; "chart"; "comparison"; "image"; "title"] ->
      get_layout_by_content_type content_type = "bullet_points").
Proof.
  unfold get_layout_by_content_type. simpl StrMap.get.
  destruct (String.eqb content_type "text") eqn:E1;
    [repeat split; simpl; auto 10; try discriminate;
     intros H; exfalso; apply H; apply String.eqb_eq in E1; simpl; auto|].
  destruct (String.eqb content_type "chart") eqn:E2;
    [repeat split; simpl; auto 10; try discriminate;
     intros H; exfalso; apply H; apply String.eqb_eq in E2; simpl; auto|].
  destruct (String.eqb content_type "comparison") eqn:E3;
    [repeat split; simpl; auto 10; try discriminate;
     intros H; exfalso; apply H; apply String.eqb_eq in E3; simpl; auto|].
  destruct (String.eqb content_type "image") eqn:E4;
    [repeat split; simpl; auto 10; try discriminate;
     intros H; exfalso; apply H; apply String.eqb_eq in E4; simpl; auto|].
  destruct (String.eqb content_type "title") eqn:E5;
    [repeat split; simpl; auto 10; try discriminate;
     intros H; exfalso; apply H; apply String.eqb_eq in E5; simpl; auto 10|].
  repeat split; simpl; auto 10; discriminate.
Qed.

Lemma layout_by_content_type_in_catalog_witness :
  ~ In "video" ["text"; "chart"; "comparison"; "image"; "title"]
  /\ get_layout_by_content_type "video" = "bullet_points".
Proof.
  assert (H : ~ In "video" ["text"; "chart"; "comparison"; "image"; "title"]).
  { simpl. intros [H|[H|[H|[H|[H|[]]]]]]; discriminate. }
  split; [exact H|].
  exact (proj2 (proj2 (layout_by_content_type_in_catalog "video")) H).
Defined.

Lemma layout_entry_cases (layout : string) :
  (Dict.get layout layouts = None /\ ~ In layout get_available_layouts)
  \/ (exists e es,
        Dict.get layout layouts = Some (VDict (e :: es))
        /\ In layout get_available_layouts
        /\ Dict.get "theme" (e :: es) = None
        /\ Dict.get "overrides" (e :: es) = None).
Proof.
  destruct (Dict.get layout layouts) as [entry|] eqn:H.
  - right. simpl in H.
    repeat match type of H with
           | (if String.eqb ?a ?b then _ else _) = _ =>
               let E := fresh "E" in
               destruct (String.eqb a b) eqn:E;
               [apply String.eqb_eq in E; subst; injection H as <-;
                eexists _, _; repeat split; simpl; auto 10 |]
           end.
    discriminate.
  - left. split; [reflexivity|]. now apply dict_get_none_keys.
Qed.

Lemma theme_overrides_cases (theme : string) :
  (StrMap.get theme theme_config = None /\ _get_theme_overrides theme = [])
  \/ (exists o os,
        StrMap.get theme theme_config = Some (o :: os)
        /\ _get_theme_overrides theme = o :: os).
Proof.
  unfold _get_theme_overrides. simpl.
  repeat match goal with
         | |- context [String.eqb ?a ?b] =>
             destruct (String.eqb a b);
             [right; eexists _, _; split; reflexivity |]
         end.
  left. split; reflexivity.
Qed.

(** X14. [apply_theme] never changes what the layout entry holds: every
    field other than ['theme'] and ['overrides'] reads as in the catalog.
    The two fields are added, with the theme name and its overrides,
    exactly when the layout is in the catalog and the theme is one of
    the configured ones; a name outside the catalog gives the empty
    dict. *)
Theorem apply_theme_keeps_entry (layout theme : string) :
  (forall k, k <> "theme" -> k <> "overrides" ->
     Dict.get k (apply_theme layout theme)
     = match get_layout_details layout with
       | Some (VDict entry) => Dict.get k entry
       | _ => None
       end)
  /\ (~ In layout get_available_layouts -> apply_theme layout theme = [])
  /\ (In layout get_available_layouts ->
      forall overrides, StrMap.get theme theme_config = Some overrides ->
        Dict.get "theme" (apply_theme layout theme) = Some (VStr theme)
        /\ Dict.get "overrides" (apply_theme layout theme) = Some (VDict overrides))
  /\ (StrMap.get theme theme_config = None ->
      Dict.get "theme" (apply_theme layout theme) = None
      /\ Dict.get "overrides" (apply_theme layout theme) = None).
Proof.
  unfold apply_theme, get_layout_details.
  destruct (layout_entry_cases layout)
    as [[Hnone Hout] | (e & es & Hsome & Hin & Hth & Hov)].
  - rewrite Hnone. split; [reflexivity|]. split; [reflexivity|].
    split; [intros Hin; contradiction|]. intros _. now split.
  - rewrite Hsome.
    destruct (theme_overrides_cases theme) as [[Hcfg ->] | (o & os & Hcfg & ->)].
    + split; [reflexivity|]. split; [intros H; contradiction|].
      split; [intros _ ov Hov'; congruence|]. intros _. now split.
    + split.
      { intros k Hk1 Hk2.
        now rewrite !PresentationAgentFacts.dict_get_set_other by congruence. }
      split; [intros H; contradiction|].
      split; [|intros H; congruence].
      intros _ ov Hov'. rewrite Hcfg in Hov'. injection Hov' as <-. split.
      * rewrite PresentationAgentFacts.dict_get_set_other by discriminate.
        apply PresentationAgentFacts.dict_get_set_same.
      * apply PresentationAgentFacts.dict_get_set_same.
Qed.

Lemma apply_theme_keeps_entry_witness :
  In "chart_slide" get_available_layouts
  /\ Dict.get "theme" (apply_theme "chart_slide" "business") = Some (VStr "business")
  /\ Dict.get "name" (apply_theme "chart_slide" "business")
     = Some (VStr "Chart/Visualization")
  /\ Dict.get "theme" (apply_theme "chart_slide" "neon") = None.
Proof.
  assert (Hin : In "chart_slide" get_available_layouts) by (simpl; auto).
  destruct (apply_theme_keeps_entry "chart_slide" "business")
    as (Hkeep & _ & Hadd & _).
  destruct (apply_theme_keeps_entry "chart_slide" "neon") as (_ & _ & _ & Hnone).
  split; [exact Hin|].
  split; [exact (proj1 (Hadd Hin _ eq_refl))|].
  split; [|exact (proj1 (Hnone eq_refl))].
  rewrite (Hkeep "name"); [reflexivity | discriminate | discriminate].
Defined.

End AdvisorFacts.

(** ** The chart descriptor builder: supported types, constructors, customizing *)

Module ChartFacts.
Import ChartGenerator.

Lemma existsb_eqb_In (x : string) (l : list string) :
  existsb (String.eqb x) l = true <-> In x l.
Proof.
  rewrite existsb_exists. split.
  - intros (y & Hin & Heq). apply String.eqb_eq in Heq. now subst.
  - intros Hin. exists x. split; [exact Hin | apply String.eqb_refl].
Qed.



Lemma call_generate_chart_known {S : Type} (chart_type : string) (data : value)
  (theme title : string) (kwargs : dict) (s : S) :
  matches_known chart_type = true ->
  call_generate_chart chart_type data theme title kwargs s
  = if existsb (fun k => Dict.contains k kwargs) bound_keywords
    then Raised TypeError s []
    else Done (VDict (chart_config chart_type data theme title kwargs)) s
           [Log INFO ("Generated " ++ chart_type ++ " chart with theme " ++ theme)].
Proof.
  intros Hk. unfold call_generate_chart.
  destruct (existsb _ bound_keywords); [reflexivity|].
  now apply ChartGeneratorFacts.generate_chart_known.
Qed.

(** X16. The four constructors never report an unsupported type.  Unless a
    keyword argument bears a name that [generate_chart] binds itself,
    which is a [TypeError], each returns the descriptor of its own type
    with the two data series under their names, the title and the theme
    given, and the other keyword arguments under ['kwargs']. *)
Theorem chart_constructors_build_their_type {S : Type} (xs ys : value)
  (title theme : string) (kwargs : dict) (s : S) :
  existsb (fun k => Dict.contains k kwargs) bound_keywords = false ->
  generate_bar_chart xs ys title theme kwargs s
  = Done (VDict (chart_config "bar" (VDict [("categories", xs); ("values", ys)])
                   theme title kwargs)) s
      [Log INFO ("Generated bar chart with theme " ++ theme)]
  /\ generate_line_chart xs ys title theme kwargs s
     = Done (VDict (chart_config "line" (VDict [("x_data", xs); ("y_data", ys)])
                      theme title kwargs)) s
         [Log INFO ("Generated line chart with theme " ++ theme)]
  /\ generate_pie_chart xs ys title theme kwargs s
     = Done (VDict (chart_config "pie" (VDict [("labels", xs); ("values", ys)])
                      theme title kwargs)) s
         [Log INFO ("Generated pie chart with theme " ++ theme)]
  /\ generate_scatter_chart xs ys title theme kwargs s
     = Done (VDict (chart_config "scatter" (VDict [("x_data", xs); ("y_data", ys)])
                      theme title kwargs)) s
         [Log INFO ("Generated scatter chart with theme " ++ theme)].
Proof.
  intros Hfree.
  unfold generate_bar_chart, generate_line_chart, generate_pie_chart,
    generate_scatter_chart.
  rewrite !call_generate_chart_known by reflexivity.
  rewrite Hfree. repeat split.
Qed.

Lemma chart_constructors_build_their_type_witness :
  existsb (fun k => Dict.contains k Samples.custom_params) bound_keywords = false
  /\ generate_pie_chart (VList [VStr "A"; VStr "B"]) (VList [VInt 1; VInt 2])
       "Shares" "minimal" Samples.custom_params tt
     = Done (VDict (chart_config "pie"
                      (VDict [ ("labels", VList [VStr "A"; VStr "B"]);
                               ("values", VList [VInt 1; VInt 2]) ])
                      "minimal" "Shares" Samples.custom_params)) tt
         [Log INFO "Generated pie chart with theme minimal"].
Proof.
  split; [reflexivity|].
  exact (proj1 (proj2 (proj2
           (chart_constructors_build_their_type (VList [VStr "A"; VStr "B"])
              (VList [VInt 1; VInt 2]) "Shares" "minimal" Samples.custom_params tt
              eq_refl)))).
Defined.

(** A keyword argument named like a parameter that [generate_chart]
    binds itself ([data], for one) makes every constructor raise
    [TypeError], with nothing logged. *)
Lemma chart_constructors_reject_bound_keywords {S : Type} (xs ys : value)
  (title theme : string) (kwargs : dict) (s : S) :
  existsb (fun k => Dict.contains k kwargs) bound_keywords = true ->
  generate_bar_chart xs ys title theme kwargs s = Raised TypeError s []
  /\ generate_line_chart xs ys title theme kwargs s = Raised TypeError s []
  /\ generate_pie_chart xs ys title theme kwargs s = Raised TypeError s []
  /\ generate_scatter_chart xs ys title theme kwargs s = Raised TypeError s [].
Proof.
  intros Hclash.
  unfold generate_bar_chart, generate_line_chart, generate_pie_chart,
    generate_scatter_chart, call_generate_chart.
  rewrite Hclash. repeat split.
Qed.

Lemma chart_constructors_reject_bound_keywords_witness :
  existsb (fun k => Dict.contains k [("data", VNone)]) bound_keywords = true
  /\ generate_bar_chart (VList []) (VList []) "Bar Chart" "default"
       [("data", VNone)] tt
     = Raised TypeError tt [].
Proof.
  split; [reflexivity|].
  exact (proj1 (chart_constructors_reject_bound_keywords (VList []) (VList [])
                  "Bar Chart" "default" [("data", VNone)] tt eq_refl)).
Defined.

Lemma dict_update_get (other : dict) :
  NoDup (Dict.keys other) ->
  forall (d : dict) (k : string),
    Dict.get k (dict_update d other)
    = match Dict.get k other with
      | Some v => Some v
      | None => Dict.get k d
      end.
Proof.
  unfold dict_update.
  induction other as [|[k0 v0] rest IH]; intros Hnd d k; [reflexivity|].
  simpl in Hnd. inversion Hnd as [|? ? Hnotin Hnd']; subst.
  simpl. rewrite (IH Hnd').
  destruct (String.eqb k k0) eqn:E.
  - apply String.eqb_eq in E. subst k0.
    apply AdvisorFacts.dict_get_none_keys in Hnotin. rewrite Hnotin.
    apply PresentationAgentFacts.dict_get_set_same.
  - apply String.eqb_neq in E.
    now rewrite PresentationAgentFacts.dict_get_set_other.
Qed.

(** X17. [customize_chart] on a chart that holds its keyword dict and a
    title: the call returns, logging the title; afterwards a keyword
    reads as the custom value when one is given and as before otherwise,
    and every other field of the chart is as it was. *)
Theorem customize_chart_updates_kwargs (py_str : value -> string)
  (chart kwargs custom : dict) (title : value) :
  Dict.get "kwargs" chart = Some (VDict kwargs) ->
  Dict.get "title" chart = Some title ->
  NoDup (Dict.keys custom) ->
  exists chart' kwargs' : dict,
    customize_chart py_str chart custom
    = (chart',
       [Log INFO ("Customized chart: " ++ SlideGenerator.format py_str title)],
       None)
    /\ Dict.get "kwargs" chart' = Some (VDict kwargs')
    /\ (forall k, Dict.get k kwargs'
                  = match Dict.get k custom with
                    | Some v => Some v
                    | None => Dict.get k kwargs
                    end)
    /\ (forall k, k <> "kwargs" -> Dict.get k chart' = Dict.get k chart).
Proof.
  intros Hkw Ht Hnd.
  exists (Dict.set "kwargs" (VDict (dict_update kwargs custom)) chart),
         (dict_update kwargs custom).
  unfold customize_chart. rewrite Hkw.
  rewrite PresentationAgentFacts.dict_get_set_other by discriminate.
  rewrite Ht. split; [reflexivity|].
  split; [apply PresentationAgentFacts.dict_get_set_same|].
  split; [intros k; now apply dict_update_get|].
  intros k Hk. now apply PresentationAgentFacts.dict_get_set_other.
Qed.

Lemma customize_chart_updates_kwargs_witness :
  exists chart' kwargs' : dict,
    customize_chart Samples.no_str Samples.bar_descriptor Samples.custom_params
    = (chart', [Log INFO "Customized chart: Sales"], None)
    /\ Dict.get "kwargs" chart' = Some (VDict kwargs')
    /\ Dict.get "width" kwargs' = Some (VInt 5)
    /\ Dict.get "legend" kwargs' = Some (VBool true)
    /\ Dict.get "type" chart' = Some (VStr "bar").
Proof.
  assert (Hnd : NoDup (Dict.keys Samples.custom_params)).
  { repeat constructor; simpl; intuition discriminate. }
  destruct (customize_chart_updates_kwargs Samples.no_str Samples.bar_descriptor
              [("width", VInt 3)] Samples.custom_params (VStr "Sales")
              eq_refl eq_refl Hnd) as (chart' & kwargs' & Hrun & Hkw & Hget & Hrest).
  exists chart', kwargs'.
  split; [exact Hrun|]. split; [exact Hkw|].
  split; [exact (Hget "width")|]. split; [exact (Hget "legend")|].
  rewrite (Hrest "type"); [reflexivity | discriminate].
Defined.

(** X18. [customize_chart] on a chart without ['kwargs'], such as the empty
    dict that [generate_chart] returns for an unsupported type, raises
    [KeyError] and leaves the chart as it was; keywords that are no dict
    raise [AttributeError]. *)
Theorem customize_chart_needs_kwargs (py_str : value -> string)
  (chart custom : dict) :
  (forall (chart_type : string) (data : value) (theme title : string)
          (kwargs : dict) (failed : value) (tr : list event),
      matches_known chart_type = false ->
      generate_chart chart_type data theme title kwargs tt = Done failed tt tr ->
      exists d, failed = VDict d
                /\ customize_chart py_str d custom = (d, [], Some (KeyError "kwargs")))
  /\ (Dict.get "kwargs" chart = None ->
      customize_chart py_str chart custom = (chart, [], Some (KeyError "kwargs")))
  /\ (forall v, Dict.get "kwargs" chart = Some v -> is_dict v = false ->
      customize_chart py_str chart custom
      = (chart, [], Some (AttributeError "update"))).
Proof.
  split.
  { intros chart_type data theme title kwargs failed tr Hk Hgen.
    rewrite (ChartGeneratorFacts.generate_chart_unknown _ _ _ _ _ _ Hk) in Hgen.
    injection Hgen as <- _. now exists []. }
  unfold customize_chart. split.
  - intros ->. reflexivity.
  - intros v -> Hv. destruct v; try reflexivity; discriminate.
Qed.

Lemma customize_chart_needs_kwargs_witness :
  Dict.get "kwargs" [("title", VStr "T")] = None
  /\ customize_chart Samples.no_str [("title", VStr "T")] Samples.custom_params
     = ([("title", VStr "T")], [], Some (KeyError "kwargs")).
Proof.
  split; [reflexivity|].
  exact (proj1 (proj2 (customize_chart_needs_kwargs Samples.no_str
                         [("title", VStr "T")] Samples.custom_params)) eq_refl).
Defined.

(** X19. For every theme listed by [get_available_themes] the descriptor
    carries that theme's own style, the entry of the style table under
    the theme's name. *)
Theorem available_theme_gives_own_style (chart_type : string) (data : value)
  (theme title : string) (kwargs : dict) :
  In theme get_available_themes ->
  exists style : value,
    Dict.get theme chart_styles = Some style
    /\ Dict.get "style" (chart_config chart_type data theme title kwargs)
       = Some style.
Proof.
  intros Hin.
  destruct (Dict.get theme chart_styles) as [style|] eqn:Hget.
  - exists style. split; [reflexivity|].
    change (Dict.get "style" (chart_config chart_type data theme title kwargs))
      with (Some (Dict.get_default theme
                    (Dict.get_default "default" VNone chart_styles) chart_styles)).
    unfold Dict.get_default at 1. now rewrite Hget.
  - apply AdvisorFacts.dict_get_none_keys in Hget. contradiction.
Qed.

Lemma available_theme_gives_own_style_witness :
  In "business" get_available_themes
  /\ exists style : value,
       Dict.get "business" chart_styles = Some style
       /\ Dict.get "style" (chart_config "area" VNone "business" "" []) = Some style.
Proof.
  assert (H : In "business" get_available_themes) by (simpl; auto).
  split; [exact H|].
  exact (available_theme_gives_own_style "area" VNone "business" "" [] H).
Defined.

End ChartFacts.

(** ** The orchestrator: export, deck creation, charts, notes *)

Module OrchestratorFacts.
Import PresentationAgent.

Lemma exporters_get_registered
  (exporter_export :
     ExportFormat -> list dict -> dict -> string -> string -> dict -> bool)
  (f : ExportFormat) :
  exporters_get (exporters exporter_export) f = Some (exporter_export f).
Proof. destruct f; reflexivity. Qed.

Lemma export_format_value (format_type : string) (f : ExportFormat) :
  enum_getitem ExportFormat_members (PyStr.upper format_type) = Some f ->
  ExportFormat_value f = PyStr.lower format_type.
Proof.
  intros H. simpl in H.
  repeat match type of H with
         | (if String.eqb ?a ?b then _ else _) = Some _ =>
             let E := fresh "E" in
             destruct (String.eqb a b) eqn:E;
             [apply String.eqb_eq in E; apply EnumFacts.lower_of_upper in E;
              injection H as <-; rewrite E; reflexivity |]
         end.
  discriminate.
Qed.



Lemma norm_index_nonneg {A} (l : list A) (i : Z) :
  0 <= i < PyList.len l -> PyList.norm_index l i = Some (Z.to_nat i).
Proof.
  intros [Hlo Hhi]. unfold PyList.norm_index.
  destruct (i <? 0) eqn:E1; [apply Z.ltb_lt in E1; lia|].
  destruct (i <? PyList.len l) eqn:E2; [reflexivity | apply Z.ltb_ge in E2; lia].
Qed.

Lemma norm_index_below {A} (l : list A) (i : Z) :
  i < - PyList.len l -> PyList.norm_index l i = None.
Proof.
  intros H. unfold PyList.norm_index, PyList.len in *.
  destruct (i <? 0) eqn:E1; [|apply Z.ltb_ge in E1; lia].
  destruct (0 <=? i + Z.of_nat (List.length l)) eqn:E2;
    [apply Z.leb_le in E2; lia | reflexivity].
Qed.

Lemma norm_index_bound {A} (l : list A) (i : Z) (n : nat) :
  PyList.norm_index l i = Some n -> (n < List.length l)%nat /\ i < PyList.len l.
Proof.
  unfold PyList.norm_index, PyList.len.
  destruct (i <? 0) eqn:E1.
  - apply Z.ltb_lt in E1.
    destruct (0 <=? i + Z.of_nat (List.length l)) eqn:E2; [|discriminate].
    apply Z.leb_le in E2. intros H. injection H as <-. lia.
  - apply Z.ltb_ge in E1.
    destruct (i <? Z.of_nat (List.length l)) eqn:E2; [|discriminate].
    apply Z.ltb_lt in E2. intros H. injection H as <-. lia.
Qed.

Lemma generate_chart_returns {S : Type} (chart_type : string) (data : value)
  (theme title : string) (kwargs : dict) (s : S) :
  exists chart tr,
    ChartGenerator.generate_chart chart_type data theme title kwargs s
    = Done chart s tr
    /\ (forall s' : S,
          ChartGenerator.generate_chart chart_type data theme title kwargs s'
          = Done chart s' tr).
Proof.
  unfold ChartGenerator.generate_chart.
  destruct (enum_getitem _ _); eexists _, _; split; reflexivity.
Qed.

(** X21. An index below [-len(slides)] passes the bounds check of
    [add_chart]; the chart is built and logged, and then the subscript
    raises [IndexError].  The agent is left as it was. *)
Theorem add_chart_index_too_negative (a : agent) (slide_index : Z)
  (chart_type : string) (data : value) :
  slide_index < - PyList.len (slides a) ->
  exists (chart : value) (tr : list event),
    ChartGenerator.generate_chart chart_type data (theme a) "" [] a = Done chart a tr
    /\ add_chart slide_index chart_type data a = Raised IndexError a tr.
Proof.
  intros Hlow.
  destruct (generate_chart_returns chart_type data (theme a) "" [] a)
    as (chart & tr & Hgen & _).
  exists chart, tr. split; [exact Hgen|].
  unfold add_chart, bind, get_state.
  destruct (slide_index >=? PyList.len (slides a)) eqn:E.
  { rewrite Z.geb_leb in E. apply Z.leb_le in E. unfold PyList.len in *. lia. }
  rewrite Hgen, (norm_index_below _ _ Hlow).
  unfold raise. now rewrite app_nil_r.
Qed.

Lemma add_chart_index_too_negative_witness :
  -3 < - PyList.len (slides Samples.two_slides)
  /\ add_chart (-3) "pie" VNone Samples.two_slides
     = Raised IndexError Samples.two_slides
         [Log INFO "Generated pie chart with theme default"].
Proof.
  assert (H : -3 < - PyList.len (slides Samples.two_slides)) by reflexivity.
  split; [exact H|].
  destruct (add_chart_index_too_negative Samples.two_slides (-3) "pie" VNone H)
    as (chart & tr & Hgen & Hrun).
  injection Hgen as _ <-. exact Hrun.
Defined.



Lemma update_update {A} (f g : A -> A) (l : list A) (n : nat) :
  PyList.update n f (PyList.update n g l) = PyList.update n (fun x => f (g x)) l.
Proof.
  revert n; induction l as [|x l IH]; intros [|n]; simpl; auto.
  now rewrite IH.
Qed.

Lemma update_ext {A} (f g : A -> A) (l : list A) (n : nat) :
  (forall x, f x = g x) -> PyList.update n f l = PyList.update n g l.
Proof.
  intros H. revert n; induction l as [|x l IH]; intros [|n]; simpl; auto.
  - now rewrite H.
  - now rewrite IH.
Qed.

Lemma norm_index_length {A} (l l' : list A) (i : Z) :
  List.length l' = List.length l -> PyList.norm_index l' i = PyList.norm_index l i.
Proof. intros H. unfold PyList.norm_index, PyList.len. now rewrite H. Qed.

(** X23. A second [add_chart] on a slide overrides the first: after a call
    that returned, a call with the same index gives the very result it
    would have given without the first call. *)
Theorem add_chart_last_call_wins (a a1 : agent) (slide_index : Z)
  (chart_type1 chart_type2 : string) (data1 data2 : value) (tr1 : list event) :
  add_chart slide_index chart_type1 data1 a = Done a1 a1 tr1 ->
  add_chart slide_index chart_type2 data2 a1
  = add_chart slide_index chart_type2 data2 a.
Proof.
  intros H1.
  destruct (slide_index >=? PyList.len (slides a)) eqn:E.
  - unfold add_chart, bind, get_state in H1. rewrite E in H1.
    cbn in H1. now injection H1 as <-.
  - rewrite Z.geb_leb in E. apply Z.leb_gt in E.
    destruct (PyList.norm_index (slides a) slide_index) as [n|] eqn:Hn.
    + rewrite (PresentationAgentFacts.add_chart_in_range a slide_index chart_type1
                 data1 n E Hn) in H1.
      destruct (generate_chart_returns chart_type1 data1 (theme a) "" [] a)
        as (chart1 & t1 & Hgen1 & _).
      rewrite Hgen1 in H1. cbv zeta in H1. injection H1 as <- _.
      assert (Hlen : List.length
                       (slides (set_slides
                          (PyList.update n (Dict.set "chart" chart1) (slides a)) a))
                     = List.length (slides a))
        by apply PresentationAgentFacts.update_length.
      rewrite (PresentationAgentFacts.add_chart_in_range _ slide_index chart_type2
                 data2 n);
        [| unfold PyList.len in *; rewrite Hlen; exact E
         | rewrite (norm_index_length _ _ _ Hlen); exact Hn ].
      rewrite (PresentationAgentFacts.add_chart_in_range a slide_index chart_type2
                 data2 n E Hn).
      destruct (generate_chart_returns chart_type2 data2 (theme a) "" [] a)
        as (chart2 & t2 & Hgen2 & Hany).
      cbn [theme set_slides]. rewrite Hgen2, Hany. cbv zeta.
      cbn [slides set_slides].
      rewrite update_update.
      rewrite (update_ext _ (Dict.set "chart" chart2))
        by (intros x; apply NotesFacts.dict_set_set).
      reflexivity.
    + unfold add_chart, bind, get_state in H1.
      destruct (slide_index >=? PyList.len (slides a)) eqn:E';
        [rewrite Z.geb_leb in E'; apply Z.leb_le in E'; lia|].
      destruct (generate_chart_returns chart_type1 data1 (theme a) "" [] a)
        as (chart1 & t1 & Hgen1 & _).
      rewrite Hgen1, Hn in H1. discriminate.
Qed.

Lemma add_chart_last_call_wins_witness :
  exists (a1 : agent) (tr1 : list event),
    add_chart 1 "pie" VNone Samples.two_slides = Done a1 a1 tr1
    /\ add_chart 1 "bar" Samples.pie_data a1
       = add_chart 1 "bar" Samples.pie_data Samples.two_slides.
Proof.
  eexists _, _. split; [reflexivity|].
  exact (add_chart_last_call_wins Samples.two_slides _ 1 "pie" "bar" VNone
           Samples.pie_data _ eq_refl).
Defined.

Lemma contains_set_kept (f k : string) (v : value) (d : dict) :
  Dict.contains f d = true -> Dict.contains f (Dict.set k v d) = true.
Proof.
  unfold Dict.contains. intros H.
  destruct (String.eqb f k) eqn:E.
  - apply String.eqb_eq in E. subst.
    now rewrite PresentationAgentFacts.dict_get_set_same.
  - apply String.eqb_neq in E.
    now rewrite PresentationAgentFacts.dict_get_set_other.
Qed.

Lemma validate_slide_set (k : string) (v : value) (slide : dict) :
  SlideGenerator.validate_slide slide = true ->
  SlideGenerator.validate_slide (Dict.set k v slide) = true.
Proof.
  unfold SlideGenerator.validate_slide. rewrite !forallb_forall.
  intros H f Hf. apply contains_set_kept. now apply H.
Qed.

Lemma Forall_update {A} (P : A -> Prop) (f : A -> A) (l : list A) (n : nat) :
  (forall x, P x -> P (f x)) -> Forall P l -> Forall P (PyList.update n f l).
Proof.
  intros Hf H. revert n. induction H as [|x l Hx Hl IH]; intros [|n]; simpl;
    constructor; auto.
Qed.

(** X24. [add_chart] keeps a valid deck valid: when every slide passes
    [validate_slide] before a call that returns, every slide passes it
    after the call. *)
Theorem add_chart_keeps_slides_valid (a a' self : agent) (slide_index : Z)
  (chart_type : string) (data : value) (tr : list event) :
  Forall (fun slide => SlideGenerator.validate_slide slide = true) (slides a) ->
  add_chart slide_index chart_type data a = Done self a' tr ->
  Forall (fun slide => SlideGenerator.validate_slide slide = true) (slides a').
Proof.
  intros Hvalid Hrun.
  destruct (slide_index >=? PyList.len (slides a)) eqn:E.
  - unfold add_chart, bind, get_state in Hrun. rewrite E in Hrun.
    cbn in Hrun. now injection Hrun as _ <- _.
  - rewrite Z.geb_leb in E. apply Z.leb_gt in E.
    destruct (generate_chart_returns chart_type data (theme a) "" [] a)
      as (chart & t & Hgen & _).
    destruct (PyList.norm_index (slides a) slide_index) as [n|] eqn:Hn.
    + rewrite (PresentationAgentFacts.add_chart_in_range a slide_index chart_type
                 data n E Hn), Hgen in Hrun.
      cbv zeta in Hrun. injection Hrun as _ <- _. cbn [slides set_slides].
      apply Forall_update; [|exact Hvalid].
      intros slide. apply validate_slide_set.
    + unfold add_chart, bind, get_state in Hrun.
      destruct (slide_index >=? PyList.len (slides a)) eqn:E';
        [rewrite Z.geb_leb in E'; apply Z.leb_le in E'; lia|].
      rewrite Hgen, Hn in Hrun. discriminate.
Qed.

Lemma add_chart_keeps_slides_valid_witness :
  Forall (fun slide => SlideGenerator.validate_slide slide = true)
         (slides Samples.two_slides)
  /\ exists a' tr,
       add_chart (-1) "donut" VNone Samples.two_slides = Done a' a' tr
       /\ Forall (fun slide => SlideGenerator.validate_slide slide = true)
                 (slides a').
Proof.
  assert (Hvalid : Forall (fun slide => SlideGenerator.validate_slide slide = true)
                          (slides Samples.two_slides))
    by (repeat constructor).
  split; [exact Hvalid|]. eexists _, _. split; [reflexivity|].
  exact (add_chart_keeps_slides_valid Samples.two_slides _ _ (-1) "donut" VNone _
           Hvalid eq_refl).
Defined.

Lemma mutate_each_notes (py_str : value -> string) (sl : list dict) :
  mutate_each
    (fun slide =>
       match SlideGenerator.generate_speaker_notes py_str slide with
       | inr notes => inr (Dict.set "speaker_notes" (VStr notes) slide)
       | inl e => inl e
       end) sl
  = SlideGenerator.add_speaker_notes_to_slides py_str sl.
Proof.
  induction sl as [|slide rest IH]; [reflexivity|].
  simpl. destruct (SlideGenerator.generate_speaker_notes py_str slide);
    [reflexivity|].
  now rewrite IH.
Qed.

(** X25. The notes pass of the agent does to its slides exactly what
    [add_speaker_notes_to_slides] does to a list: when every slide gets
    its notes the agent returns with the new slides and one log record;
    when a slide raises, the exception reaches the caller and the agent
    keeps the slides as the loop left them, the earlier ones with their
    notes. *)
Theorem generate_speaker_notes_as_slide_generator (py_str : value -> string)
  (a : agent) :
  generate_speaker_notes py_str a
  = match SlideGenerator.add_speaker_notes_to_slides py_str (slides a) with
    | (sl, None) =>
        Done (set_slides sl a) (set_slides sl a)
          [Log INFO "Generated speaker notes for all slides"]
    | (sl, Some e) => Raised e (set_slides sl a) []
    end.
Proof.
  unfold generate_speaker_notes, _generate_speaker_notes, for_slides.
  unfold bind at 1 2 3. unfold get_state at 1.
  rewrite mutate_each_notes.
  destruct (SlideGenerator.add_speaker_notes_to_slides py_str (slides a))
    as [sl [e|]]; reflexivity.
Qed.

Lemma content_slides_nth_inv (sections : list string) :
  forall (i0 : Z) (j : nat) (slide : dict),
    nth_error (SlideGenerator.content_slides i0 sections) j = Some slide ->
    exists section,
      slide = SlideGenerator._parse_section_to_slide section (i0 + Z.of_nat j).
Proof.
  induction sections as [|section rest IH]; intros i0 j slide H.
  - destruct j; discriminate.
  - destruct j as [|j]; simpl in H.
    + injection H as <-. exists section. now rewrite Z.add_0_r.
    + apply IH in H as [section' ->]. exists section'. f_equal. lia.
Qed.

(** What [create_from_text] comes to: the agent [created], returned. *)
Lemma create_from_text_state (py_str : value -> string) (title : string)
  (sections : list string) (data_source : option string) (speaker_notes : bool)
  (a : agent) :
  returns (create_from_text py_str title sections data_source speaker_notes) a
    (fun self a' =>
       self = a' /\ a' = created py_str title sections speaker_notes a).
Proof.
  unfold create_from_text.
  apply PyFacts.returns_bind, PyFacts.returns_emit.
  apply PyFacts.returns_bind, PresentationAgentFacts.returns_modify.
  apply PyFacts.returns_bind.
  unfold SlideGenerator.generate_slides_from_text.
  apply PyFacts.returns_bind, PyFacts.returns_emit.
  apply PyFacts.returns_ret.
  apply PyFacts.returns_bind, PresentationAgentFacts.returns_modify.
  apply PyFacts.returns_bind.
  assert (Hrest :
    returns
      (for_slides (fun slide =>
         inr (Dict.set "layout"
                (VStr (LayoutSuggester.suggest_layout slide)) slide)) ;;;
       (if speaker_notes then _generate_speaker_notes py_str else ret tt) ;;;
       a1 <- get_state ;;
       logger_info ("Created " ++ PyStr.of_Z (PyList.len (slides a1)) ++ " slides") ;;;
       return_self)
      (set_slides (SlideGenerator.slides_from_text title sections)
         (set_metadata (Dict.set "title" (VStr title) (metadata a)) a))
      (fun self a' =>
         self = a' /\ a' = created py_str title sections speaker_notes a)).
  { apply PyFacts.returns_bind.
    apply (PresentationAgentFacts.returns_for_slides _ with_layout);
      [reflexivity|].
    cbn [slides set_slides set_metadata].
    apply PyFacts.returns_bind.
    unfold created, deck_slides.
    destruct speaker_notes.
    - unfold _generate_speaker_notes.
      apply PyFacts.returns_bind.
      apply (PresentationAgentFacts.returns_for_slides _ (with_notes py_str)).
      + cbn [slides set_slides set_metadata]. intros slide Hin. unfold with_notes.
        destruct (PresentationAgentFacts.notes_of_generated py_str title sections
                    slide Hin) as [notes ->].
        reflexivity.
      + cbn [slides set_slides set_metadata]. apply PyFacts.returns_emit.
        apply PyFacts.returns_bind, PyFacts.returns_get_state.
        apply PyFacts.returns_bind, PyFacts.returns_emit.
        apply PyFacts.returns_get_state.
        split; reflexivity.
    - apply PyFacts.returns_ret.
      apply PyFacts.returns_bind, PyFacts.returns_get_state.
      apply PyFacts.returns_bind, PyFacts.returns_emit.
      apply PyFacts.returns_get_state.
      split; reflexivity. }
  destruct data_source as [source|].
  - destruct (String.eqb source "").
    + apply PyFacts.returns_ret. exact Hrest.
    + apply PyFacts.returns_bind, PyFacts.returns_emit.
      apply PyFacts.returns_emit. exact Hrest.
  - apply PyFacts.returns_ret. exact Hrest.
Qed.

Lemma returns_weaken {S A} (m : Py S A) (s : S) (P Q : A -> S -> Prop) :
  (forall a s', P a s' -> Q a s') -> returns m s P -> returns m s Q.
Proof.
  intros HPQ (a & s' & tr & Hm & HP). exists a, s', tr. auto.
Qed.

Lemma created_twice (py_str : value -> string) (title : string)
  (sections : list string) (speaker_notes : bool) (a : agent) :
  created py_str title sections speaker_notes
    (created py_str title sections speaker_notes a)
  = created py_str title sections speaker_notes a.
Proof.
  unfold created. cbn [theme verbose metadata]. now rewrite NotesFacts.dict_set_set.
Qed.

(** X26. [create_from_text] replaces the deck: the slides it leaves depend
    on the title, the sections and the notes flag only, nothing of the
    slides held before remains; the theme is kept, and so is every entry
    of the metadata but ['title'], which is set.  Calling it again with
    the same arguments returns the same agent. *)
Theorem create_from_text_replaces_deck (py_str : value -> string) (title : string)
  (sections : list string) (data_source : option string) (speaker_notes : bool)
  (a : agent) :
  returns (create_from_text py_str title sections data_source speaker_notes) a
    (fun self a' =>
       self = a'
       /\ slides a' = deck_slides py_str title sections speaker_notes
       /\ theme a' = theme a
       /\ Dict.get "title" (metadata a') = Some (VStr title)
       /\ (forall k, k <> "title" ->
             Dict.get k (metadata a') = Dict.get k (metadata a))
       /\ returns
            (create_from_text py_str title sections data_source speaker_notes) a'
            (fun self' a'' => self' = a' /\ a'' = a')).
Proof.
  eapply returns_weaken; [|apply create_from_text_state].
  intros self a' [-> ->].
  split; [reflexivity|]. split; [reflexivity|]. split; [reflexivity|].
  split; [apply PresentationAgentFacts.dict_get_set_same|].
  split.
  { intros k Hk. now apply PresentationAgentFacts.dict_get_set_other. }
  eapply returns_weaken; [|apply create_from_text_state].
  intros self' a'' [-> ->]. now rewrite created_twice.
Qed.

Lemma deck_slides_nth (py_str : value -> string) (title : string)
  (sections : list string) (speaker_notes : bool) (i : nat) (slide : dict) :
  nth_error (deck_slides py_str title sections speaker_notes) i = Some slide ->
  exists slide0,
    slide = (if speaker_notes then with_notes py_str (with_layout slide0)
             else with_layout slide0)
    /\ ((i = 0%nat /\ slide0 = SlideGenerator.title_slide title)
        \/ exists section,
             slide0 = SlideGenerator._parse_section_to_slide section (Z.of_nat i)).
Proof.
  unfold deck_slides. intros H.
  assert (Hmap : exists slide0,
             nth_error (SlideGenerator.slides_from_text title sections) i
             = Some slide0
             /\ slide = (if speaker_notes then with_notes py_str (with_layout slide0)
                         else with_layout slide0)).
  { destruct speaker_notes.
    - rewrite map_map in H. rewrite nth_error_map in H.
      destruct (nth_error _ i) as [slide0|]; [|discriminate].
      injection H as <-. now exists slide0.
    - rewrite nth_error_map in H.
      destruct (nth_error _ i) as [slide0|]; [|discriminate].
      injection H as <-. now exists slide0. }
  destruct Hmap as (slide0 & Hnth & ->). exists slide0. split; [reflexivity|].
  unfold SlideGenerator.slides_from_text in Hnth.
  destruct i as [|j]; simpl in Hnth.
  - injection Hnth as <-. now left.
  - right. apply content_slides_nth_inv in Hnth as [section ->].
    exists section. f_equal. lia.
Qed.

(** X27. After [create_from_text] every slide passes [validate_slide], the
    slide at position i carries the id i, its ['layout'] is the layout
    that the advisor suggests for the slide as it now is, and it has
    speaker notes exactly when they were asked for. *)
Theorem create_from_text_deck_is_consistent (py_str : value -> string)
  (title : string) (sections : list string) (data_source : option string)
  (speaker_notes : bool) (a : agent) :
  returns (create_from_text py_str title sections data_source speaker_notes) a
    (fun _ a' =>
       forall (i : nat) (slide : dict),
         nth_error (slides a') i = Some slide ->
         SlideGenerator.validate_slide slide = true
         /\ Dict.get "id" slide = Some (VInt (Z.of_nat i))
         /\ Dict.get "layout" slide
            = Some (VStr (LayoutSuggester.suggest_layout slide))
         /\ Dict.contains "speaker_notes" slide = speaker_notes).
Proof.
  eapply returns_weaken; [|apply create_from_text_state].
  intros self a' [_ ->] i slide Hnth. cbn [created slides] in Hnth.
  apply deck_slides_nth in Hnth
    as (slide0 & -> & [[-> ->] | [section ->]]);
    destruct speaker_notes; repeat split; reflexivity.
Qed.

End OrchestratorFacts.

(** ** The data fetcher: the cache *)

Module DataFetcherFacts.
Import DataFetcher.

Section Cache.

Variable data : Type.

Lemma strmap_get_set_same (k : string) (d : data) (c : cache data) :
  StrMap.get k (StrMap.set k d c) = Some d.
Proof.
  induction c as [|[k' d'] c IH]; simpl.
  - now rewrite String.eqb_refl.
  - destruct (String.eqb k k') eqn:E; simpl; now rewrite E.
Qed.

Lemma strmap_get_set_other (k k' : string) (d : data) (c : cache data) :
  k <> k' -> StrMap.get k (StrMap.set k' d c) = StrMap.get k c.
Proof.
  intros Hne. induction c as [|[k0 d0] c IH]; simpl.
  - apply String.eqb_neq in Hne. now rewrite Hne.
  - destruct (String.eqb k' k0) eqn:E; simpl.
    + apply String.eqb_eq in E. subst k0.
      apply String.eqb_neq in Hne. now rewrite Hne.
    + now rewrite IH.
Qed.

Lemma fetch_from_cases (read : reader -> string -> dict -> option data * string)
  (r : reader) (source : string) (kwargs : dict) (c : cache data) :
  (exists d msg,
      _fetch_from data read r source kwargs c
      = Done (Some d) (StrMap.set source d c) [Log INFO msg])
  \/ (exists msg,
        _fetch_from data read r source kwargs c = Done None c [Log ERROR msg]).
Proof.
  unfold _fetch_from. destruct (read r source kwargs) as [[d|] msg].
  - left. now exists d, msg.
  - right. now exists msg.
Qed.

Lemma fetch_data_unfold (read : reader -> string -> dict -> option data * string)
  (source : string) (kwargs : dict) (c : cache data) :
  fetch_data data read source kwargs c
  = match StrMap.get source c with
    | Some d => Done (Some d) c [Log INFO ("Using cached data from " ++ source)]
    | None =>
        if PyStr.startswith source "http://" || PyStr.startswith source "https://"
        then _fetch_from data read FromUrl source kwargs c
        else if PyStr.endswith source ".csv"
        then _fetch_from data read FromCsv source kwargs c
        else if PyStr.endswith source ".xlsx" || PyStr.endswith source ".xls"
        then _fetch_from data read FromExcel source kwargs c
        else if PyStr.endswith source ".json"
        then _fetch_from data read FromJson source kwargs c
        else Done None c [Log ERROR ("Unsupported data source format: " ++ source)]
    end.
Proof.
  assert (Hid : forall r : result (cache data) (option data),
             match r with
             | Done b s'' tr' => Done b s'' ([] ++ tr')
             | Raised e s'' tr' => Raised e s'' ([] ++ tr')
             end = r) by (intros [b s' t | e s' t]; reflexivity).
  unfold fetch_data, bind, get_state. cbv beta iota.
  destruct (StrMap.get source c); [reflexivity|].
  repeat match goal with
         | |- context [if ?b then _ else _] => destruct b; [apply Hid|]
         end.
  reflexivity.
Qed.

(** What a call of [fetch_data] can come to. *)
Lemma fetch_data_cases (read : reader -> string -> dict -> option data * string)
  (source : string) (kwargs : dict) (c : cache data) :
  (exists d,
      StrMap.get source c = Some d
      /\ fetch_data data read source kwargs c
         = Done (Some d) c [Log INFO ("Using cached data from " ++ source)])
  \/ (StrMap.get source c = None
      /\ exists msg,
           fetch_data data read source kwargs c = Done None c [Log ERROR msg])
  \/ (StrMap.get source c = None
      /\ exists d msg,
           fetch_data data read source kwargs c
           = Done (Some d) (StrMap.set source d c) [Log INFO msg]).
Proof.
  rewrite fetch_data_unfold.
  destruct (StrMap.get source c) as [d|] eqn:Hget.
  - left. now exists d.
  - right.
    assert (Hreader : forall r,
      (@None data = None
       /\ exists msg,
            _fetch_from data read r source kwargs c = Done None c [Log ERROR msg])
      \/ (@None data = None
          /\ exists d msg,
               _fetch_from data read r source kwargs c
               = Done (Some d) (StrMap.set source d c) [Log INFO msg])).
    { intros r.
      destruct (fetch_from_cases read r source kwargs c)
        as [(d & m & ->) | (m & ->)]; [right | left]; split; eauto. }
    repeat match goal with
           | |- context [if ?b then _ else _] => destruct b; [apply Hreader|]
           end.
    left. split; [reflexivity|]. eexists. reflexivity.
Qed.

(** X28. A source that [fetch_data] has fetched is answered from the cache
    from then on: after a call that returned data, every later call for
    that source returns the same data and leaves the cache alone,
    whatever the readers would find and whatever the keyword arguments. *)
Theorem fetch_data_answers_from_cache
  (read read' : reader -> string -> dict -> option data * string)
  (source : string) (kwargs kwargs' : dict) (c c' : cache data) (d : data)
  (tr : list event) :
  fetch_data data read source kwargs c = Done (Some d) c' tr ->
  fetch_data data read' source kwargs' c'
  = Done (Some d) c' [Log INFO ("Using cached data from " ++ source)].
Proof.
  intros H.
  assert (Hcached : StrMap.get source c' = Some d).
  { destruct (fetch_data_cases read source kwargs c)
      as [(d0 & Hget & Hrun) | [(_ & msg & Hrun) | (_ & d0 & msg & Hrun)]];
      rewrite Hrun in H; try discriminate; injection H as <- <- _.
    - exact Hget.
    - apply strmap_get_set_same. }
  destruct (fetch_data_cases read' source kwargs' c')
    as [(d0 & Hget & Hrun) | [(Hget & _) | (Hget & _)]]; congruence.
Qed.


(** X30. [fetch_data] only ever adds to the cache: an entry that is cached
    before a call is cached after it, with the same data. *)
Theorem fetch_data_keeps_cache_entries
  (read : reader -> string -> dict -> option data * string)
  (source : string) (kwargs : dict) (c c' : cache data) (r : option data)
  (tr : list event) (k : string) (d : data) :
  fetch_data data read source kwargs c = Done r c' tr ->
  StrMap.get k c = Some d ->
  StrMap.get k c' = Some d.
Proof.
  intros H Hk.
  destruct (fetch_data_cases read source kwargs c)
    as [(d0 & Hget & Hrun) | [(Hget & msg & Hrun) | (Hget & d0 & msg & Hrun)]];
    rewrite Hrun in H; injection H as _ <- _; try exact Hk.
  rewrite strmap_get_set_other; [exact Hk|].
  intros ->. congruence.
Qed.

End Cache.

Lemma fetch_data_answers_from_cache_witness :
  fetch_data Z Samples.csv_reader "sales.csv" [] []
  = Done (Some 7) [("sales.csv", 7)] [Log INFO "Fetched CSV data from sales.csv"]
  /\ fetch_data Z Samples.failing_reader "sales.csv" [] [("sales.csv", 7)]
     = Done (Some 7) [("sales.csv", 7)] [Log INFO "Using cached data from sales.csv"].
Proof.
  split; [reflexivity|].
  exact (fetch_data_answers_from_cache Z Samples.csv_reader Samples.failing_reader
           "sales.csv" [] [] [] [("sales.csv", 7)] 7 _ eq_refl).
Defined.


Lemma fetch_data_keeps_cache_entries_witness :
  StrMap.get "sales.csv" [("sales.csv", 7)] = Some 7
  /\ exists c',
       fetch_data Z Samples.csv_reader "costs.csv" [] [("sales.csv", 7)]
       = Done (Some 7) c' [Log INFO "Fetched CSV data from costs.csv"]
       /\ StrMap.get "sales.csv" c' = Some 7.
Proof.
  split; [reflexivity|]. eexists. split; [reflexivity|].
  exact (fetch_data_keeps_cache_entries Z Samples.csv_reader "costs.csv" []
           [("sales.csv", 7)] _ _ _ "sales.csv" 7 eq_refl eq_refl).
Defined.

End DataFetcherFacts.
